(** * The ADS-B ingestion loop of [app.py]

    A shallow embedding of [decoder_daemon] and [connect_tcpserver]
    (src/app.py) together with the Python built-ins their behaviour
    depends on: byte slicing, strict UTF-8 decoding, [int(s, 16)] and the
    arithmetic right shift.

    Conventions.  A Python [bytes] object is a [list byte], a Python [str]
    is the list of its code points.  The loop body runs in a small monad
    that threads the world (socket, shared packet, decoder object, clock,
    log of the calls made) and can leave early, either by [continue] or by
    an exception that nothing in [decoder_daemon] catches. *)

From Stdlib Require Import ZArith NArith List String Bool Lia.
From Stdlib Require Import Strings.Byte.
From Stdlib Require Import DecimalString.
Import ListNotations.

Set Implicit Arguments.
Local Open Scope Z_scope.

(** ** Python values *)

Definition codepoint := N.
Definition pystr := list codepoint.
Definition bytes := list byte.

(** The exceptions the modelled code can meet. *)
Inductive exn :=
| ValueError
| OverflowError
| UnicodeDecodeError
| TimeoutError
| ConnectionError
| OSError.

Module Py.

(** [b == c] on bytes objects. *)
Fixpoint bytes_eqb (a b : bytes) : bool :=
  match a, b with
  | [], [] => true
  | x :: a', y :: b' => Byte.eqb x y && bytes_eqb a' b'
  | _, _ => false
  end.

(** [b[-1:]]: the last byte as a bytes object, empty when [b] is. *)
Definition slice_last (b : bytes) : bytes :=
  match rev b with
  | [] => []
  | x :: _ => [x]
  end.

(** [b[:-1]]: everything but the last byte. *)
Definition slice_init (b : bytes) : bytes := removelast b.

(** [s[:2]]. *)
Definition slice_2 (s : pystr) : pystr := firstn 2 s.

(** *** [bytes.decode("utf-8")], strict error handling

    Well-formed sequences only: no stray continuation byte, no overlong
    form, no surrogate, nothing above U+10FFFF. *)

Definition between (lo hi b : N) : bool := ((lo <=? b) && (b <=? hi))%N.

Definition cont (b : N) : N := (b - 0x80)%N.

Fixpoint utf8_decode (bs : list N) : option pystr :=
  match bs with
  | [] => Some []
  | b0 :: t0 =>
    if (b0 <=? 0x7F)%N then option_map (cons b0) (utf8_decode t0)
    else if (b0 <=? 0xC1)%N then None
    else if (b0 <=? 0xDF)%N then
      match t0 with
      | b1 :: t1 =>
        if between 0x80 0xBF b1
        then option_map (cons ((b0 - 0xC0) * 64 + cont b1)%N) (utf8_decode t1)
        else None
      | _ => None
      end
    else if (b0 <=? 0xEF)%N then
      match t0 with
      | b1 :: b2 :: t2 =>
        if between (if (b0 =? 0xE0)%N then 0xA0 else 0x80)%N
                   (if (b0 =? 0xED)%N then 0x9F else 0xBF)%N b1
           && between 0x80 0xBF b2
        then option_map
               (cons ((b0 - 0xE0) * 4096 + cont b1 * 64 + cont b2)%N)
               (utf8_decode t2)
        else None
      | _ => None
      end
    else if (b0 <=? 0xF4)%N then
      match t0 with
      | b1 :: b2 :: b3 :: t3 =>
        if between (if (b0 =? 0xF0)%N then 0x90 else 0x80)%N
                   (if (b0 =? 0xF4)%N then 0x8F else 0xBF)%N b1
           && between 0x80 0xBF b2 && between 0x80 0xBF b3
        then option_map
               (cons ((b0 - 0xF0) * 262144 + cont b1 * 4096
                      + cont b2 * 64 + cont b3)%N)
               (utf8_decode t3)
        else None
      | _ => None
      end
    else None
  end.

(** [b.decode("utf-8")]; [None] stands for [UnicodeDecodeError]. *)
Definition decode (b : bytes) : option pystr :=
  utf8_decode (map Byte.to_N b).

(** [s.encode()] for text of code points below 128, handy for writing
    ASCII messages down. *)
Definition ascii (s : string) : pystr := map Byte.to_N (list_byte_of_string s).

(** *** [int(s, 16)]

    The interpreter first rewrites the text to ASCII: ASCII characters
    stay, any other white space becomes a blank, any other decimal digit
    becomes the ASCII digit of its value, and the first code point that
    is neither ends the text with a question mark.  (In a text that is
    not all ASCII the interpreter also replaces DEL, code 127, by the
    question mark; neither is part of a literal, so keeping it changes
    no result.)  The two look-ups into the Unicode database are only
    made above 127 and are left to the interpreter at hand.  Then comes
    the literal: white space, a sign, [0x] or [0X], digits with single
    underscores between them, white space. *)

Class Unicode := {
  uni_isspace : codepoint -> bool;
  uni_todecimal : codepoint -> option N
}.

Section Int.
Context {U : Unicode}.

Fixpoint to_ascii (s : pystr) : list N :=
  match s with
  | [] => []
  | ch :: r =>
    if (ch <? 128)%N then ch :: to_ascii r
    else if uni_isspace ch then 32%N :: to_ascii r
    else match uni_todecimal ch with
         | Some d => (48 + d)%N :: to_ascii r
         | None => [63%N]
         end
  end.

(** The C locale's [isspace]: blank, tab, line feed, vertical tab,
    form feed, carriage return. *)
Definition isspace (c : N) : bool := ((c =? 32) || between 9 13 c)%N.

(** Value of a digit in bases up to 36; 37 for anything else. *)
Definition digit_value (c : N) : Z :=
  if between 48 57 c then Z.of_N c - 48
  else if between 97 122 c then Z.of_N c - 87
  else if between 65 90 c then Z.of_N c - 55
  else 37.

Fixpoint skip_space (s : list N) : list N :=
  match s with
  | c :: r => if isspace c then skip_space r else s
  | [] => []
  end.

(** Digits of base 16 with single underscores between them.  [prev]
    tells whether the character before was an underscore; the result
    is the value read so far, the number of digits and the rest of the
    text, or [None] for a doubled or trailing underscore. *)
Fixpoint scan_digits (s : list N) (prev : bool) (acc : Z) (digits : nat)
  : option (Z * nat * list N) :=
  match s with
  | [] => if prev then None else Some (acc, digits, [])
  | c :: r =>
    if (c =? 95)%N then
      if prev then None else scan_digits r true acc digits
    else if digit_value c <? 16 then
      scan_digits r false (16 * acc + digit_value c) (S digits)
    else if prev then None else Some (acc, digits, s)
  end.

Definition strip_sign (s : list N) : bool * list N :=
  match s with
  | c :: r =>
    if (c =? 43)%N then (false, r)
    else if (c =? 45)%N then (true, r)
    else (false, s)
  | [] => (false, [])
  end.

(** An optional [0x] or [0X], and one underscore after it. *)
Definition strip_prefix (s : list N) : list N :=
  match s with
  | z :: x :: r =>
    if ((z =? 48) && ((x =? 120) || (x =? 88)))%N then
      match r with
      | u :: r' => if (u =? 95)%N then r' else r
      | [] => r
      end
    else s
  | _ => s
  end.

Definition starts_with_underscore (s : list N) : bool :=
  match s with
  | c :: _ => (c =? 95)%N
  | [] => false
  end.

(** [int(s, 16)]; [None] stands for [ValueError]. *)
Definition int_16 (s : pystr) : option Z :=
  let '(negative, s1) := strip_sign (skip_space (to_ascii s)) in
  let s2 := strip_prefix s1 in
  if starts_with_underscore s2 then None
  else
    match scan_digits s2 false 0 0 with
    | None => None
    | Some (z, digits, rest) =>
      match digits, skip_space rest with
      | S _, [] => Some (if negative then - z else z)
      | _, _ => None
      end
    end.

(** Line 55: [int(msg[:2], 16) >> 3]. *)
Definition downlink_format (msg : pystr) : option Z :=
  option_map (fun v => Z.shiftr v 3) (int_16 (slice_2 msg)).

End Int.

End Py.

(** ** The shared packet and the parties the loop talks to *)

(** [model.packet.ADSBPacket]: the record the loop writes and the
    publisher reads.  The fields the decoder fills have whatever type the
    decoder returns. *)
Record ADSBPacket (Value : Type) := {
  message : pystr;
  icao : Value;
  callsign : Value;
  altitude : Value;
  timestamp : Z
}.

(** Modelled from the spec: model/packet.py is not among the sources; the
    packet is "created once at process start with all fields empty/zero",
    [empty] being the decoder's empty value. *)
Definition ADSBPacket_new {Value} (empty : Value) : ADSBPacket Value :=
  {| message := []; icao := empty; callsign := empty; altitude := empty;
     timestamp := 0 |}.

(** What [sock.recv] does: it hands over the bytes at hand, at most as
    many as asked for and none once the peer has closed, or raises (the
    timeout set at connection time, a reset, a closed descriptor). *)
Inductive recv_result :=
| Received (data : bytes)
| RecvRaised (e : exn).

(** The collaborators of [decoder_daemon].  [controller.decoder] and the
    socket are outside the sources; they are taken by their interfaces:
    every function of [controller.decoder] returns a pair of a value and
    an error flag, the getters read the message last given to [set_msg].
    [now_ms k] is [int(datetime.now().timestamp() * 1000)] at the [k]-th
    reading of the wall clock. *)
Class Capabilities (Sock Dec Value : Type) := {
  unicode :: Py.Unicode;
  socket_find : Sock -> bytes -> (Value * bool) * Sock;
  recv : Sock -> nat -> recv_result * Sock;
  msg_crc : pystr -> Value * bool;
  set_msg : Dec -> pystr -> Dec;
  get_icao : Dec -> Value * bool;
  get_callsign : Dec -> Value * bool;
  get_altitude : Dec -> Value * bool;
  now_ms : nat -> Z
}.

(** Calls that leave [decoder_daemon], in the order they are made. *)
Inductive call :=
| CallSocketFind (needle : bytes)
| CallRecv (bufsize : nat)
| CallMsgCrc (msg : pystr)
| CallSetMsg (msg : pystr)
| CallGetIcao
| CallGetCallsign
| CallGetAltitude
| CallNow.

Record World (Sock Dec Value : Type) := {
  sock : Sock;
  packet : ADSBPacket Value;
  decoder : Dec;
  ticks : nat;
  calls : list call
}.

(** How a pass through the loop body ends before its last line. *)
Inductive exit :=
| Continue
| Raise (e : exn).

Section Daemon.
Context {Sock Dec Value : Type} {C : Capabilities Sock Dec Value}.

Local Abbreviation world := (World Sock Dec Value).

(** *** The monad of the loop body *)

Definition M (A : Type) : Type := world -> (A + exit) * world.

Definition ret {A} (a : A) : M A := fun w => (inl a, w).

Definition bind {A B} (m : M A) (k : A -> M B) : M B :=
  fun w =>
    match m w with
    | (inl a, w') => k a w'
    | (inr x, w') => (inr x, w')
    end.

Definition continue {A} : M A := fun w => (inr Continue, w).

Definition raise {A} (e : exn) : M A := fun w => (inr (Raise e), w).

Definition logged (c : call) (w : world) : world :=
  {| sock := sock w; packet := packet w; decoder := decoder w;
     ticks := ticks w; calls := calls w ++ [c] |}.

Definition with_sock (s : Sock) (w : world) : world :=
  {| sock := s; packet := packet w; decoder := decoder w;
     ticks := ticks w; calls := calls w |}.

Definition with_decoder (d : Dec) (w : world) : world :=
  {| sock := sock w; packet := packet w; decoder := d;
     ticks := ticks w; calls := calls w |}.

Definition with_packet (p : ADSBPacket Value) (w : world) : world :=
  {| sock := sock w; packet := p; decoder := decoder w;
     ticks := ticks w; calls := calls w |}.

Definition with_ticks (k : nat) (w : world) : world :=
  {| sock := sock w; packet := packet w; decoder := decoder w;
     ticks := k; calls := calls w |}.

End Daemon.

Declare Scope daemon_scope.
Delimit Scope daemon_scope with daemon.
Notation "x <- m ;; k" := (bind m (fun x => k))
  (at level 61, m at next level, right associativity) : daemon_scope.
Notation "' pat <- m ;; k" := (bind m (fun x => match x with pat => k end))
  (at level 61, pat pattern, m at next level, right associativity) : daemon_scope.
Notation "m ;; k" := (bind m (fun _ => k))
  (at level 61, right associativity) : daemon_scope.

Section Loop.
Context {Sock Dec Value : Type} {C : Capabilities Sock Dec Value}.

Local Abbreviation world := (World Sock Dec Value).
Local Abbreviation M := (@M Sock Dec Value).

Local Open Scope daemon_scope.

(** *** Calls out of the loop *)

Definition call_socket_find (needle : bytes) : M (Value * bool) :=
  fun w =>
    let '(r, s) := socket_find (sock w) needle in
    (inl r, with_sock s (logged (CallSocketFind needle) w)).

Definition call_recv (bufsize : nat) : M bytes :=
  fun w =>
    let '(r, s) := recv (sock w) bufsize in
    let w' := with_sock s (logged (CallRecv bufsize) w) in
    match r with
    | Received data => (inl data, w')
    | RecvRaised e => (inr (Raise e), w')
    end.

Definition call_msg_crc (msg : pystr) : M (Value * bool) :=
  fun w => (inl (msg_crc msg), logged (CallMsgCrc msg) w).

Definition call_set_msg (msg : pystr) : M unit :=
  fun w =>
    (inl tt, with_decoder (set_msg (decoder w) msg) (logged (CallSetMsg msg) w)).

Definition call_get_icao : M (Value * bool) :=
  fun w => (inl (get_icao (decoder w)), logged CallGetIcao w).

Definition call_get_callsign : M (Value * bool) :=
  fun w => (inl (get_callsign (decoder w)), logged CallGetCallsign w).

Definition call_get_altitude : M (Value * bool) :=
  fun w => (inl (get_altitude (decoder w)), logged CallGetAltitude w).

Definition call_now : M Z :=
  fun w => (inl (now_ms (ticks w)), with_ticks (S (ticks w)) (logged CallNow w)).

(** *** Built-ins that can raise *)

Definition decode_utf8 (b : bytes) : M pystr :=
  match Py.decode b with
  | Some s => ret s
  | None => raise UnicodeDecodeError
  end.

Definition derive_df (msg : pystr) : M Z :=
  match Py.downlink_format msg with
  | Some df => ret df
  | None => raise ValueError
  end.

(** *** Attribute assignments on the shared packet *)

Definition assign (f : ADSBPacket Value -> ADSBPacket Value) : M unit :=
  fun w => (inl tt, with_packet (f (packet w)) w).

Definition set_message (v : pystr) (p : ADSBPacket Value) :=
  {| message := v; icao := icao p; callsign := callsign p;
     altitude := altitude p; timestamp := timestamp p |}.

Definition set_icao (v : Value) (p : ADSBPacket Value) :=
  {| message := message p; icao := v; callsign := callsign p;
     altitude := altitude p; timestamp := timestamp p |}.

Definition set_callsign (v : Value) (p : ADSBPacket Value) :=
  {| message := message p; icao := icao p; callsign := v;
     altitude := altitude p; timestamp := timestamp p |}.

Definition set_altitude (v : Value) (p : ADSBPacket Value) :=
  {| message := message p; icao := icao p; callsign := callsign p;
     altitude := v; timestamp := timestamp p |}.

Definition set_timestamp (v : Z) (p : ADSBPacket Value) :=
  {| message := message p; icao := icao p; callsign := callsign p;
     altitude := altitude p; timestamp := v |}.

(** *** [decoder_daemon] *)

Definition star : bytes := ["*"%byte].
Definition semicolon : bytes := [";"%byte].

(** Lines 55 to 72: what the loop does with the text of a frame. *)
Definition handle_message (msg : pystr) : M unit :=
  df <- derive_df msg ;;
  let decodable := (df =? 17) || (df =? 20) || (df =? 21) in
  if negb decodable then continue else
  '(_, err) <- call_msg_crc msg ;;
  if err && (df =? 17) then continue else
  if negb (df =? 17) then continue else
  call_set_msg msg ;;
  assign (set_message msg) ;;
  '(v, _) <- call_get_icao ;;
  assign (set_icao v) ;;
  '(v, _) <- call_get_callsign ;;
  assign (set_callsign v) ;;
  '(v, _) <- call_get_altitude ;;
  assign (set_altitude v) ;;
  t <- call_now ;;
  assign (set_timestamp t).

(** Lines 46 to 72: one pass through the body of [while True]. *)
Definition iteration : M unit :=
  '(_, err) <- call_socket_find star ;;
  if (err : bool) then continue else
  data_recv <- call_recv 29 ;;
  if negb (Py.bytes_eqb (Py.slice_last data_recv) semicolon) then continue else
  msg <- decode_utf8 (Py.slice_init data_recv) ;;
  handle_message msg.

(** The outcome of a pass: the loop goes on, or an exception leaves it. *)
Definition raised {A} (r : A + exit) : option exn :=
  match r with
  | inr (Raise e) => Some e
  | _ => None
  end.

(** [while True]: the first [n] passes.  [Some e] when an exception has
    ended the thread, [None] while the loop is still going. *)
Fixpoint decoder_daemon (n : nat) (w : world) : option exn * world :=
  match n with
  | O => (None, w)
  | S n' =>
    let '(r, w') := iteration w in
    match raised r with
    | Some e => (Some e, w')
    | None => decoder_daemon n' w'
    end
  end.

End Loop.

(** ** [connect_tcpserver] *)

(** The socket object of line 86: its timeout ([None] while it blocks)
    and whether it is connected. *)
Record socket := {
  sk_timeout : option Z;
  sk_connected : bool
}.

(** What the function asks of the network stack, in order. *)
Inductive net_call :=
| NewSocket
| SetTimeout (timeout : Z)
| Connect (host : string) (port : Z).

(** The network as the function meets it.  [socket_outcome] is what
    [socket(AF_INET, SOCK_STREAM)] does: [None] for a socket created,
    [Some e] for the exception raised (an [OSError] when the process has
    no descriptor left).  [connect_outcome] is what
    [sock.connect((host, port))] does on a socket with the given timeout,
    [None] for a connection made and [Some e] for the exception raised
    (refused, timed out, unreachable, bad address, ...).  [timeout_max]
    is the largest number of seconds the platform's own timeout can
    hold. *)
Class Network := {
  socket_outcome : option exn;
  timeout_max : Z;
  connect_outcome : string -> Z -> Z -> option exn
}.

(** The interpreter keeps a timeout as a signed 64-bit count of
    nanoseconds: this many whole seconds fit, on either side of zero. *)
Definition timeout_range : Z := 9223372036.

(** How a call ends. *)
Inductive result (A : Type) :=
| Returned (a : A)
| Raised (e : exn).
Arguments Returned {A} a.
Arguments Raised {A} e.

Section Connect.
Context {Net : Network}.

(** [sock.settimeout(t)] for an integer [t].  The value is converted
    first: one that does not fit the interpreter's range, on either side,
    is refused with [OverflowError].  A negative value that fits is
    refused with [ValueError], and one the platform cannot hold with
    [OverflowError]. *)
Definition settimeout (t : Z) : option exn :=
  if (t <? - timeout_range) || (timeout_range <? t) then Some OverflowError
  else if t <? 0 then Some ValueError
  else if timeout_max <? t then Some OverflowError
  else None.

(** Lines 75 to 92.  The second component of a returned pair is the
    failure flag: [true] when the connection was not made.  Lines 86 and
    87 stand before the [try]: what they raise leaves the function. *)
Definition connect_tcpserver (host : string) (port timeout : Z)
  : result (socket * bool) * list net_call :=
  match socket_outcome with
  | Some e => (Raised e, [NewSocket])
  | None =>
    let sock := {| sk_timeout := None; sk_connected := false |} in
    match settimeout timeout with
    | Some e => (Raised e, [NewSocket; SetTimeout timeout])
    | None =>
      let sock := {| sk_timeout := Some timeout; sk_connected := sk_connected sock |} in
      match connect_outcome host port timeout with
      | None =>
        (Returned ({| sk_timeout := sk_timeout sock; sk_connected := true |}, false),
         [NewSocket; SetTimeout timeout; Connect host port])
      | Some _ =>
        (Returned (sock, true),
         [NewSocket; SetTimeout timeout; Connect host port])
      end
    end
  end.

Definition is_connect (c : net_call) : bool :=
  match c with
  | Connect _ _ => true
  | _ => false
  end.

(** Number of connection attempts in a trace. *)
Definition attempts (t : list net_call) : nat :=
  List.length (filter is_connect t).

End Connect.

(** ** [main] and [graceful_shutdown] *)

(** [settings.settings.Settings] after [parse]: the feed to read and the
    HTTP server to run.  The type of the server's two switches is the
    configuration's business. *)
Record SourceSettings := {
  source_host : string;
  source_port : Z;
  source_timeout : Z
}.

Record ServerSettings (Flag : Type) := {
  server_host : string;
  server_port : Z;
  server_cors : Flag;
  server_debug : Flag
}.

Record Settings (Flag : Type) := {
  source : SourceSettings;
  server : ServerSettings Flag
}.

(** What [main] and [graceful_shutdown] do to the outside, in order.  The
    handler registered with [server.on] is kept as the events it will
    produce when the signal comes. *)
#[warnings="-register-all"]
Inductive event (Router Flag : Type) :=
| DictConfig
| GetLogger (name : string)
| LogInfo (text : string)
| ArgsParse
| ConfParse (path : string)
| NetCall (c : net_call)
| NewPacket
| NewDecoder
| NewPublisher
| StartThread (sk : socket)
| NewServer (host : string) (port : Z) (cors debug : Flag)
| On (signal : string) (handler : list (event Router Flag))
| Route (router : Router)
| Static (path dir : string)
| ServerStart
| SockClose (sk : socket).
Arguments DictConfig {Router Flag}.
Arguments GetLogger {Router Flag} name.
Arguments LogInfo {Router Flag} text.
Arguments ArgsParse {Router Flag}.
Arguments ConfParse {Router Flag} path.
Arguments NetCall {Router Flag} c.
Arguments NewPacket {Router Flag}.
Arguments NewDecoder {Router Flag}.
Arguments NewPublisher {Router Flag}.
Arguments StartThread {Router Flag} sk.
Arguments NewServer {Router Flag} host port cors debug.
Arguments On {Router Flag} signal handler.
Arguments Route {Router Flag} router.
Arguments Static {Router Flag} path dir.
Arguments ServerStart {Router Flag}.
Arguments SockClose {Router Flag} sk.

(** What [main] is started with: the path the command line gives, what
    [Settings.parse] makes of the file there (its error flag and the
    settings), and the routers of [settings.router.API_ROUTERS].  The
    calls on these collaborators are taken to return. *)
Class Deployment (Router Flag : Type) := {
  args_path : string;
  conf_parse : string -> bool * Settings Flag;
  API_ROUTERS : list Router
}.

(** How [main] ends: [server.start()] has returned, [exit] was called, or
    an exception went through. *)
Inductive main_end :=
| Served
| SystemExit (code : Z)
| Uncaught (e : exn).

(** [str(n)] for an integer, as an f-string renders it. *)
Definition str (n : Z) : string := NilZero.string_of_int (Z.to_int n).

Section Main.
Context {Router Flag : Type} {D : Deployment Router Flag} {Net : Network}.

(** Lines 18 to 31. *)
Definition graceful_shutdown (sk : socket) : list (event Router Flag) :=
  [SockClose sk; LogInfo "TCP connection has been closed"].

(** Lines 95 to 146. *)
Definition main : main_end * list (event Router Flag) :=
  let started := [DictConfig; GetLogger "global_logger"; ArgsParse;
                  ConfParse args_path] in
  let '(err, conf) := conf_parse args_path in
  if err then (SystemExit 1, started ++ [LogInfo "Failed to parse config"])
  else
    let connecting := started ++ [LogInfo "Connecting to ADS-B server..."] in
    let host := source_host (source conf) in
    let port := source_port (source conf) in
    let endpoint := String.append host (String.append ":" (str port)) in
    match connect_tcpserver host port (source_timeout (source conf)) with
    | (Raised e, net) => (Uncaught e, connecting ++ map NetCall net)
    | (Returned (sk, err), net) =>
      if (err : bool) then
        (SystemExit 1,
         connecting ++ map NetCall net
         ++ [LogInfo (String.append "Failed to connect to " endpoint)])
      else
        (Served,
         connecting ++ map NetCall net
         ++ [LogInfo (String.append "Connected to " endpoint);
             NewPacket; NewDecoder; NewPublisher; StartThread sk;
             NewServer (server_host (server conf)) (server_port (server conf))
                       (server_cors (server conf)) (server_debug (server conf));
             On "shutdown" (graceful_shutdown sk)]
         ++ map Route API_ROUTERS
         ++ [Static "/" "./view"; ServerStart])
    end.

(** The calls on the network stack in a trace. *)
Fixpoint net_calls (t : list (event Router Flag)) : list net_call :=
  match t with
  | [] => []
  | NetCall c :: r => c :: net_calls r
  | _ :: r => net_calls r
  end.

(** The routers registered in a trace, in order. *)
Fixpoint routes (t : list (event Router Flag)) : list Router :=
  match t with
  | [] => []
  | Route x :: r => x :: routes r
  | _ :: r => routes r
  end.

End Main.

(** ** A world to run the loop in

    Stand-ins for the collaborators, used to run the loop on concrete
    streams; every general statement below holds for all collaborators. *)

Module Sample.

(** The values a decoder hands out. *)
Inductive value :=
| VNone
| VStr (s : pystr)
| VInt (z : Z).

(** A scripted socket: what the feed delivers, piece by piece. *)
Inductive delivery :=
| Chunk (data : bytes)
| Broken (e : exn).

Definition script := list delivery.

Definition rest_of (data : bytes) (s : script) : script :=
  match data with
  | [] => s
  | _ => Chunk data :: s
  end.

(** [recv] on the scripted socket; once the script is over the peer has
    closed and [recv] returns no byte. *)
Definition script_recv (s : script) (bufsize : nat) : recv_result * script :=
  match s with
  | [] => (Received [], [])
  | Broken e :: r => (RecvRaised e, r)
  | Chunk data :: r => (Received (firstn bufsize data), rest_of (skipn bufsize data) r)
  end.

(** The bytes after the first occurrence of [needle], if there is one. *)
Fixpoint after_first (needle : byte) (data : bytes) : option bytes :=
  match data with
  | [] => None
  | x :: r => if Byte.eqb x needle then Some r else after_first needle r
  end.

(** Modelled from the spec: controller.decoder.socket_find is not among
    the sources.  "Scan incoming bytes one at a time until the sentinel
    start byte is observed; discard everything before it"; a scan that
    fails reports an error. *)
Fixpoint script_find (needle : byte) (s : script) : (value * bool) * script :=
  match s with
  | [] => ((VNone, true), [])
  | Broken _ :: r => ((VNone, true), r)
  | Chunk data :: r =>
    match after_first needle data with
    | Some rest => ((VStr [Byte.to_N needle], false), rest_of rest r)
    | None => script_find needle r
    end
  end.

Definition find (s : script) (needle : bytes) : (value * bool) * script :=
  match needle with
  | b :: _ => script_find b s
  | [] => ((VNone, true), s)
  end.

(** An excerpt of the Unicode database: the white space above 127, the
    Arabic-Indic and the fullwidth digits. *)
#[export] Instance unicode_excerpt : Py.Unicode := {|
  Py.uni_isspace c :=
    existsb (N.eqb c) [0x85; 0xA0; 0x1680; 0x2028; 0x2029; 0x202F; 0x205F; 0x3000]%N
    || Py.between 0x2000 0x200A c;
  Py.uni_todecimal c :=
    if Py.between 0x660 0x669 c then Some (c - 0x660)%N
    else if Py.between 0xFF10 0xFF19 c then Some (c - 0xFF10)%N
    else None
|}.

Definition is_hex (c : N) : bool := Py.digit_value c <? 16.

(** [s[i:j]]. *)
Definition slice (i j : nat) (s : pystr) : pystr := firstn (j - i) (skipn i s).

(** Modelled from the spec: controller.decoder.msg_crc is not among the
    sources, "err is non-nil when the message fails integrity
    validation".  The stand-in accepts the 28 hexadecimal characters of a
    frame and nothing else. *)
Definition crc (msg : pystr) : value * bool :=
  if (List.length msg =? 28)%nat && forallb is_hex msg
  then (VInt 0, false) else (VNone, true).

(** The type code of an extended squitter: the top five bits of its
    fifth byte. *)
Definition type_code (msg : pystr) : option Z :=
  option_map (fun v => Z.shiftr v 3) (Py.int_16 (slice 8 10 msg)).

(** Modelled from the spec: controller.decoder.ADSBDecoder is not among
    the sources, "each getter is independently fallible".  The stand-in
    [store] keeps the message given to [set_msg]; the address is
    characters 2 to 8, the callsign field is read from identification
    messages (type codes 1 to 4) and the altitude field from airborne
    position messages (type codes 9 to 18); a getter that fails returns
    [None] with the flag. *)
Definition store (_ : pystr) (msg : pystr) : pystr := msg.

Definition icao_of (d : pystr) : value * bool :=
  if (8 <=? List.length d)%nat then (VStr (slice 2 8 d), false) else (VNone, true).

Definition callsign_of (d : pystr) : value * bool :=
  match type_code d with
  | Some tc => if (1 <=? tc) && (tc <=? 4) then (VStr (slice 10 22 d), false) else (VNone, true)
  | None => (VNone, true)
  end.

Definition altitude_of (d : pystr) : value * bool :=
  match type_code d with
  | Some tc =>
    if (9 <=? tc) && (tc <=? 18) then
      match Py.int_16 (slice 10 13 d) with
      | Some v => (VInt v, false)
      | None => (VNone, true)
      end
    else (VNone, true)
  | None => (VNone, true)
  end.

(** The collaborators with a given wall clock. *)
Definition capabilities (clock : nat -> Z) : Capabilities script pystr value := {|
  unicode := unicode_excerpt;
  socket_find := find;
  recv := script_recv;
  msg_crc := crc;
  set_msg := store;
  get_icao := icao_of;
  get_callsign := callsign_of;
  get_altitude := altitude_of;
  now_ms := clock
|}.

(** A clock that gains a second with every reading. *)
Definition steady_clock (k : nat) : Z := 1700000000000 + 1000 * Z.of_nat k.

(** The collaborators under the steady clock. *)
Definition steady : Capabilities script pystr value := capabilities steady_clock.

(** A clock that is set back by a second after its first reading. *)
Definition stepped_clock (k : nat) : Z :=
  match k with
  | O => 1700000002000
  | S _ => 1700000001000
  end.

(** The world at the start of the thread: nothing decoded yet. *)
Definition boot (feed : script) : World script pystr value :=
  {| sock := feed; packet := ADSBPacket_new VNone; decoder := [];
     ticks := 0; calls := [] |}.

(** Frames as they come off the wire. *)
Definition wire (s : string) : bytes := list_byte_of_string s.

Definition identification : string := "8D4840D6202CC371C32CE0576098".
Definition position : string := "8D40621D58C382D690C8AC2863A7".
Definition comm_b : string := "A0001838CA3E51F0A8000047A36A".

(** A frame on the wire: the start sentinel, the payload, the
    terminator. *)
Definition frame (payload : string) : bytes :=
  wire (String.append "*" (String.append payload ";")).

(** An extended squitter with a character that is no hexadecimal digit in
    its last place: format 17, refused by the checksum stand-in. *)
Definition damaged : string := "8D4840D6202CC371C32CE057609X".

(** A payload with a header that is no hexadecimal text. *)
Definition garbled : string := "ZZ4840D6202CC371C32CE0576098".

(** A frame cut short: the terminator comes in a chunk of its own. *)
Definition feed_short : script := [Chunk (wire "*"); Chunk (wire ";")].

(** A payload that is no UTF-8: the byte 0xFF after the header. *)
Definition feed_not_utf8 : script :=
  [Chunk (wire "*"); Chunk (wire "8D" ++ [xff] ++ wire "840D6202CC371C32CE0576098;")].

(** A frame whose terminator was corrupted into a comma. *)
Definition feed_bad_terminator : script :=
  [Chunk (wire (String.append "*" (String.append identification ",")))].

(** An identification message followed by a position message. *)
Definition feed_two : script :=
  [Chunk (frame identification ++ frame position)].

(** A network in which nothing answers. *)
Definition dead_network : Network :=
  {| socket_outcome := None; timeout_max := 9223372036;
     connect_outcome := fun _ _ _ => Some TimeoutError |}.

(** A network in which only port 30003 of the local host answers. *)
Definition local_network : Network :=
  {| socket_outcome := None; timeout_max := 9223372036;
     connect_outcome := fun host port _ =>
       if String.eqb host "127.0.0.1" && (port =? 30003) then None
       else Some ConnectionError |}.

(** A deployment with two routers whose settings name the local feed. *)
Definition local_settings : Settings bool :=
  {| source := {| source_host := "127.0.0.1"; source_port := 30003;
                  source_timeout := 2 |};
     server := {| server_host := "0.0.0.0"; server_port := 8080;
                  server_cors := true; server_debug := false |} |}.

Definition local_deployment : Deployment string bool :=
  {| args_path := "config.json";
     conf_parse := fun _ => (false, local_settings);
     API_ROUTERS := ["/api/packet"; "/api/status"]%string |}.

(** A deployment whose settings carry a negative timeout. *)
Definition hasty_deployment : Deployment string bool :=
  {| args_path := "config.json";
     conf_parse := fun _ =>
       (false,
        {| source := {| source_host := "127.0.0.1"; source_port := 30003;
                        source_timeout := -1 |};
           server := server local_settings |});
     API_ROUTERS := ["/api/packet"; "/api/status"]%string |}.

(** A deployment whose configuration file cannot be read. *)
Definition broken_deployment : Deployment string bool :=
  {| args_path := "missing.json";
     conf_parse := fun _ => (true, local_settings);
     API_ROUTERS := ["/api/packet"; "/api/status"]%string |}.

End Sample.

(** ** Vocabulary of the statements *)

(** A hexadecimal digit and its value. *)
Definition hex_digit (c : codepoint) : option Z :=
  if Py.digit_value c <? 16 then Some (Py.digit_value c) else None.

(** The first two characters of a message read as the two hexadecimal
    digits of one byte. *)
Definition header_byte (msg : pystr) : option Z :=
  match msg with
  | c1 :: c2 :: _ =>
    match hex_digit c1, hex_digit c2 with
    | Some hi, Some lo => Some (16 * hi + lo)
    | _, _ => None
    end
  | _ => None
  end.

(** The test that [int(s, 16)] reads two hexadecimal digits as the byte
    they spell, run over all of ASCII in the proof of that fact. *)
Definition two_digits_checked (U : Py.Unicode) (c1 c2 : codepoint) : bool :=
  match hex_digit c1, hex_digit c2 with
  | Some hi, Some lo =>
    match Py.int_16 [c1; c2] with
    | Some v => (v =? 16 * hi + lo) && (0 <=? hi) && (hi <=? 15) && (0 <=? lo) && (lo <=? 15)
    | None => false
    end
  | _, _ => true
  end.

Section Vocabulary.
Context {Sock Dec Value : Type} {C : Capabilities Sock Dec Value}.

(** The message field is still empty, or it holds a text of downlink
    format 17 that the checksum accepts. *)
Definition message_validated (p : ADSBPacket Value) : Prop :=
  message p = []
  \/ (Py.downlink_format (message p) = Some 17 /\ snd (msg_crc (message p)) = false).

(** The decode capability is deterministic: what the getters return
    depends on the message given to [set_msg] and on nothing else. *)
Definition deterministic_decoder : Prop :=
  forall (d d' : Dec) (msg : pystr),
    get_icao (set_msg d msg) = get_icao (set_msg d' msg)
    /\ get_callsign (set_msg d msg) = get_callsign (set_msg d' msg)
    /\ get_altitude (set_msg d msg) = get_altitude (set_msg d' msg).

(** The wall clock is never set back. *)
Definition monotone_clock : Prop :=
  forall i j : nat, (i <= j)%nat -> now_ms i <= now_ms j.

(** The stored timestamp is not ahead of the clock. *)
Definition stamped (w : World Sock Dec Value) : Prop :=
  timestamp (packet w) <= now_ms (ticks w).

(** The packet shows what the decoder's getters return for the message
    the decoder holds. *)
Definition coherent (w : World Sock Dec Value) : Prop :=
  icao (packet w) = fst (get_icao (decoder w))
  /\ callsign (packet w) = fst (get_callsign (decoder w))
  /\ altitude (packet w) = fst (get_altitude (decoder w)).

End Vocabulary.

(** The two tests compared over all of ASCII in the proof that only the
    headers 88 to 8F give format 17: the format the loop derives is 17,
    the header is an 8 followed by a hexadecimal digit from 8 to F. *)
Definition is_format_17 (U : Py.Unicode) (s : pystr) : bool :=
  match Py.downlink_format s with
  | Some df => df =? 17
  | None => false
  end.

Definition header_88_8F (c1 c2 : codepoint) : bool :=
  (c1 =? 56)%N
  && match hex_digit c2 with
     | Some lo => 8 <=? lo
     | None => false
     end.

(** * Properties *)

(** ** Built-ins *)

Lemma bytes_eqb_eq (a b : bytes) : Py.bytes_eqb a b = true <-> a = b.
Proof.
  revert b; induction a as [|x a IH]; intros [|y b]; simpl; split;
    try congruence; try discriminate.
  - intros H. apply andb_true_iff in H as [Hx Hab].
    apply Byte.byte_dec_bl in Hx. apply IH in Hab. congruence.
  - intros H. injection H as -> ->.
    apply andb_true_iff; split; [apply Byte.byte_dec_lb; reflexivity | now apply IH].
Qed.

Lemma bytes_eqb_neq (a b : bytes) : Py.bytes_eqb a b = false <-> a <> b.
Proof.
  split.
  - intros H E. apply bytes_eqb_eq in E. congruence.
  - intros H. destruct (Py.bytes_eqb a b) eqn:E; [|reflexivity].
    apply bytes_eqb_eq in E. contradiction.
Qed.

(** ** The body of the loop, case by case *)

(** Innermost-first evaluation of the loop's plumbing on a world given by
    its fields; lists, capabilities and arithmetic are left alone. *)
Ltac world_step :=
  cbv beta iota zeta delta
    [bind ret continue raise assign logged with_sock with_decoder with_packet
     with_ticks call_msg_crc call_set_msg call_get_icao call_get_callsign
     call_get_altitude call_now set_message set_icao set_callsign
     set_altitude set_timestamp sock packet decoder ticks calls
     message icao callsign altitude timestamp fst snd andb orb negb
     Z.eqb Pos.eqb].

Section LoopFacts.
Context {Sock Dec Value : Type} {C : Capabilities Sock Dec Value}.

Local Abbreviation world := (World Sock Dec Value).

(** A message whose header is no base-16 literal raises and touches
    nothing. *)
Lemma handle_message_bad_header (msg : pystr) (w : world) :
  Py.downlink_format msg = None ->
  handle_message msg w = (inr (Raise ValueError), w).
Proof.
  intros H. unfold handle_message, bind, derive_df. rewrite H. reflexivity.
Qed.

(** A message outside 17, 20 and 21 is dropped at line 58 and touches
    nothing. *)
Lemma handle_message_undecodable (msg : pystr) (w : world) (df : Z) :
  Py.downlink_format msg = Some df ->
  df <> 17 -> df <> 20 -> df <> 21 ->
  handle_message msg w = (inr Continue, w).
Proof.
  intros H H17 H20 H21. unfold handle_message, bind, derive_df. rewrite H.
  unfold ret.
  apply Z.eqb_neq in H17, H20, H21. rewrite H17, H20, H21. reflexivity.
Qed.

(** A message of format 20 or 21 is dropped at line 65, after the
    checksum has been asked for. *)
Lemma handle_message_comm_b (msg : pystr) (w : world) (df : Z) :
  Py.downlink_format msg = Some df ->
  df = 20 \/ df = 21 ->
  handle_message msg w = (inr Continue, logged (CallMsgCrc msg) w).
Proof.
  intros H Hdf. unfold handle_message, bind, derive_df. rewrite H.
  unfold ret, call_msg_crc.
  destruct (msg_crc msg) as [v err].
  destruct Hdf as [-> | ->]; simpl; rewrite andb_false_r; reflexivity.
Qed.

(** A message of format 17 that fails the checksum is dropped at line
    62. *)
Lemma handle_message_crc_error (msg : pystr) (w : world) :
  Py.downlink_format msg = Some 17 ->
  snd (msg_crc msg) = true ->
  handle_message msg w = (inr Continue, logged (CallMsgCrc msg) w).
Proof.
  intros H Hcrc. unfold handle_message, bind, derive_df. rewrite H.
  unfold ret, call_msg_crc.
  destruct (msg_crc msg) as [v err]. simpl in Hcrc. subst err. reflexivity.
Qed.

(** A message of format 17 that passes the checksum runs to the last
    line; the world it leaves behind, field by field. *)
Lemma handle_message_accepted (msg : pystr) (w : world) :
  Py.downlink_format msg = Some 17 ->
  snd (msg_crc msg) = false ->
  handle_message msg w =
  (inl tt,
   {| sock := sock w;
      packet :=
        {| message := msg;
           icao := fst (get_icao (set_msg (decoder w) msg));
           callsign := fst (get_callsign (set_msg (decoder w) msg));
           altitude := fst (get_altitude (set_msg (decoder w) msg));
           timestamp := now_ms (ticks w) |};
      decoder := set_msg (decoder w) msg;
      ticks := S (ticks w);
      calls := calls w ++ [CallMsgCrc msg; CallSetMsg msg; CallGetIcao;
                           CallGetCallsign; CallGetAltitude; CallNow] |}).
Proof.
  intros H Hcrc. unfold handle_message, bind, derive_df. rewrite H.
  unfold ret, call_msg_crc.
  destruct (msg_crc msg) as [v err]. simpl in Hcrc. subst err.
  destruct w as [s p d k l]. world_step.
  destruct (get_icao (set_msg d msg)) as [vi ei]; world_step.
  destruct (get_callsign (set_msg d msg)) as [vc ec]; world_step.
  destruct (get_altitude (set_msg d msg)) as [va ea]; world_step.
  repeat rewrite <- app_assoc. reflexivity.
Qed.

(** The five ways through lines 55 to 72. *)
Lemma handle_message_cases (msg : pystr) (w : world) :
  handle_message msg w = (inr (Raise ValueError), w)
  \/ handle_message msg w = (inr Continue, w)
  \/ handle_message msg w = (inr Continue, logged (CallMsgCrc msg) w)
  \/ (Py.downlink_format msg = Some 17 /\ snd (msg_crc msg) = false).
Proof.
  destruct (Py.downlink_format msg) as [df|] eqn:H.
  - destruct (Z.eq_dec df 17) as [->|H17].
    + destruct (snd (msg_crc msg)) eqn:Hcrc.
      * right; right; left. now apply handle_message_crc_error.
      * right; right; right. split; reflexivity.
    + destruct (Z.eq_dec df 20) as [->|H20].
      { right; right; left. apply handle_message_comm_b with (df := 20); auto. }
      destruct (Z.eq_dec df 21) as [->|H21].
      { right; right; left. apply handle_message_comm_b with (df := 21); auto. }
      right; left. now apply handle_message_undecodable with (df := df).
  - left. now apply handle_message_bad_header.
Qed.

(** Whatever a pass through the loop does to the packet is done by lines
    55 to 72, on the text of the frame just read. *)
Lemma iteration_cases (w : world) :
  (packet (snd (iteration w)) = packet w /\ ticks (snd (iteration w)) = ticks w)
  \/ exists (msg : pystr) (w2 : world),
       packet w2 = packet w /\ ticks w2 = ticks w
       /\ iteration w = handle_message msg w2.
Proof.
  unfold iteration, bind, call_socket_find, call_recv, decode_utf8.
  destruct (socket_find (sock w) star) as [[r err] s1].
  destruct err; [left; split; reflexivity|].
  simpl.
  destruct (recv s1 29) as [[data|e] s2]; [|left; split; reflexivity].
  destruct (negb (Py.bytes_eqb (Py.slice_last data) semicolon)).
  { left; split; reflexivity. }
  destruct (Py.decode (Py.slice_init data)) as [msg|]; [|left; split; reflexivity].
  right. eexists msg, _. split; [|split]; [| |reflexivity]; reflexivity.
Qed.

End LoopFacts.

(** ** What a message does to the shared packet *)

Section Filter.
Context {Sock Dec Value : Type} {C : Capabilities Sock Dec Value}.

Local Abbreviation world := (World Sock Dec Value).

(** C1.  A message consumed by the loop leaves every field of the shared
    packet (message, icao, callsign, altitude, timestamp) as it was unless
    its downlink format is 17 and the checksum reports no error.  The
    hypothesis covers a format outside 17, 20 and 21, the formats 20 and
    21, a header from which no format can be derived, and a message of
    format 17 that fails the checksum. *)
Theorem packet_untouched_unless_df17_and_crc_ok (msg : pystr) (w : world) :
  Py.downlink_format msg <> Some 17 \/ snd (msg_crc msg) = true ->
  packet (snd (handle_message msg w)) = packet w.
Proof.
  intros Hrej.
  destruct (handle_message_cases msg w) as [E | [E | [E | [Hdf Hcrc]]]];
    try (rewrite E; reflexivity).
  destruct Hrej as [Hno | Herr]; [contradiction | congruence].
Qed.

(** The three cases the specification names, each on its own. *)
Lemma packet_untouched_outside_17_20_21 (msg : pystr) (w : world) (df : Z) :
  Py.downlink_format msg = Some df ->
  df <> 17 -> df <> 20 -> df <> 21 ->
  packet (snd (handle_message msg w)) = packet w.
Proof.
  intros H H17 H20 H21.
  rewrite (handle_message_undecodable msg w H H17 H20 H21). reflexivity.
Qed.

Lemma packet_untouched_on_20_21 (msg : pystr) (w : world) (df : Z) :
  Py.downlink_format msg = Some df ->
  df = 20 \/ df = 21 ->
  packet (snd (handle_message msg w)) = packet w.
Proof.
  intros H Hdf. rewrite (handle_message_comm_b msg w H Hdf). reflexivity.
Qed.

Lemma packet_untouched_on_crc_error (msg : pystr) (w : world) :
  Py.downlink_format msg = Some 17 ->
  snd (msg_crc msg) = true ->
  packet (snd (handle_message msg w)) = packet w.
Proof.
  intros H Hcrc. rewrite (handle_message_crc_error msg w H Hcrc). reflexivity.
Qed.

(** The same seen from a whole pass through the loop: a pass that changes
    the packet has read a message of format 17 that the checksum accepts,
    and has stored it. *)
Lemma iteration_changes_packet_only_on_accept (w : world) :
  packet (snd (iteration w)) = packet w
  \/ (Py.downlink_format (message (packet (snd (iteration w)))) = Some 17
      /\ snd (msg_crc (message (packet (snd (iteration w))))) = false).
Proof.
  destruct (iteration_cases w) as [[Hp _] | (msg & w2 & Hp & _ & E)]; [now left|].
  rewrite E.
  destruct (handle_message_cases msg w2) as [E' | [E' | [E' | [Hdf Hcrc]]]];
    try (left; rewrite E'; exact Hp).
  right. rewrite (handle_message_accepted msg w2 Hdf Hcrc). simpl. now split.
Qed.

(** C3, as the code has it.  For a message whose downlink format is not
    17 the checksum is asked for exactly when the format is 20 or 21: it
    is never called on a format outside 17, 20 and 21 (nor when no format
    can be derived), and it is called once on the formats 20 and 21, where
    its answer is ignored and the message is dropped with the packet
    untouched. *)
Theorem msg_crc_called_on_20_21_only (msg : pystr) (w : world) :
  Py.downlink_format msg <> Some 17 ->
  calls (snd (handle_message msg w))
  = calls w ++ match Py.downlink_format msg with
               | Some df => if (df =? 20) || (df =? 21) then [CallMsgCrc msg] else []
               | None => []
               end
  /\ packet (snd (handle_message msg w)) = packet w
  /\ fst (handle_message msg w) <> inl tt.
Proof.
  intros H17.
  destruct (Py.downlink_format msg) as [df|] eqn:H.
  - assert (Hne : df <> 17) by congruence.
    destruct (Z.eq_dec df 20) as [->|H20].
    { rewrite (@handle_message_comm_b _ _ _ _ msg w 20 H (or_introl eq_refl)).
      simpl. repeat split; discriminate. }
    destruct (Z.eq_dec df 21) as [->|H21].
    { rewrite (@handle_message_comm_b _ _ _ _ msg w 21 H (or_intror eq_refl)).
      simpl. repeat split; discriminate. }
    rewrite (handle_message_undecodable msg w H Hne H20 H21).
    apply Z.eqb_neq in H20, H21. rewrite H20, H21. simpl.
    rewrite app_nil_r. repeat split; discriminate.
  - rewrite (handle_message_bad_header msg w H). simpl.
    rewrite app_nil_r. repeat split; discriminate.
Qed.

(** C6.  Once the start sentinel has been found, a chunk whose last byte
    is not the terminator ends the pass at line 52: the loop goes on to
    the next search for the start sentinel (the run continues with the
    next pass), the packet and the decoder are as they were, and nothing
    was called but [socket_find] and [recv]: no checksum, no decoder, no
    clock. *)
Theorem frame_without_terminator_is_discarded
  (w : world) (found : Value) (s1 s2 : Sock) (data_recv : bytes) :
  socket_find (sock w) star = ((found, false), s1) ->
  recv s1 29 = (Received data_recv, s2) ->
  Py.slice_last data_recv <> semicolon ->
  fst (iteration w) = inr Continue
  /\ packet (snd (iteration w)) = packet w
  /\ decoder (snd (iteration w)) = decoder w
  /\ ticks (snd (iteration w)) = ticks w
  /\ sock (snd (iteration w)) = s2
  /\ calls (snd (iteration w)) = calls w ++ [CallSocketFind star; CallRecv 29]
  /\ forall n : nat, decoder_daemon (S n) w = decoder_daemon n (snd (iteration w)).
Proof.
  intros Hfind Hrecv Hlast.
  apply bytes_eqb_neq in Hlast.
  cbn [decoder_daemon].
  unfold iteration, bind, call_socket_find, call_recv.
  rewrite Hfind. simpl. rewrite Hrecv. rewrite Hlast. simpl.
  repeat split. now rewrite <- app_assoc.
Qed.

(** C10.  Every pass through the loop keeps the invariant on the message
    field: it is empty, or it is a text of downlink format 17 that the
    checksum accepts; so does every run of the loop, and the packet the
    thread starts with satisfies it. *)
Theorem message_validated_is_invariant (w : world) :
  message_validated (packet w) ->
  message_validated (packet (snd (iteration w)))
  /\ (forall n : nat, message_validated (packet (snd (decoder_daemon n w))))
  /\ (forall empty : Value, message_validated (ADSBPacket_new empty)).
Proof.
  assert (Step : forall u : world,
             message_validated (packet u) ->
             message_validated (packet (snd (iteration u)))).
  { intros u Hu.
    destruct (iteration_changes_packet_only_on_accept u) as [E | Hacc].
    - now rewrite E.
    - right. exact Hacc. }
  intros Hw. split; [now apply Step|]. split.
  - intros n. revert w Hw. induction n as [|n IH]; intros w Hw; simpl; [exact Hw|].
    specialize (Step w Hw).
    destruct (iteration w) as [r w']. simpl in Step.
    destruct (raised r); simpl; [exact Step | now apply IH].
  - intros empty. left. reflexivity.
Qed.

(** Lines 55 to 72 raise exactly when no format can be derived. *)
Lemma handle_message_raised (msg : pystr) (w : world) :
  raised (fst (handle_message msg w))
  = match Py.downlink_format msg with
    | Some _ => None
    | None => Some ValueError
    end.
Proof.
  destruct (Py.downlink_format msg) as [df|] eqn:H.
  - destruct (Z.eq_dec df 17) as [->|H17].
    + destruct (snd (msg_crc msg)) eqn:Hcrc.
      * now rewrite (handle_message_crc_error msg w H Hcrc).
      * now rewrite (handle_message_accepted msg w H Hcrc).
    + destruct (Z.eq_dec df 20) as [->|H20].
      { now rewrite (@handle_message_comm_b _ _ _ _ msg w 20 H (or_introl eq_refl)). }
      destruct (Z.eq_dec df 21) as [->|H21].
      { now rewrite (@handle_message_comm_b _ _ _ _ msg w 21 H (or_intror eq_refl)). }
      now rewrite (handle_message_undecodable msg w H H17 H20 H21).
  - now rewrite (handle_message_bad_header msg w H).
Qed.

(** C4, as the code has it.  With collaborators that report failure
    through their error flags, a pass through the loop raises in three
    cases and in no other: [recv] raises (the connection is broken or
    timed out), the chunk ends in the terminator and its payload is no
    UTF-8 ([UnicodeDecodeError]), or the payload decodes and its first two
    characters are no base-16 literal ([ValueError]).  A failed scan for
    the start sentinel and a chunk that does not end in the terminator,
    whatever its length, never raise. *)
Theorem iteration_raises_exactly_on_bad_payload
  (w : world) (found : Value) (err : bool) (s1 s2 : Sock) (r : recv_result) :
  socket_find (sock w) star = ((found, err), s1) ->
  recv s1 29 = (r, s2) ->
  raised (fst (iteration w))
  = if err then None
    else match r with
         | RecvRaised e => Some e
         | Received data_recv =>
           if Py.bytes_eqb (Py.slice_last data_recv) semicolon then
             match Py.decode (Py.slice_init data_recv) with
             | None => Some UnicodeDecodeError
             | Some msg =>
               match Py.downlink_format msg with
               | Some _ => None
               | None => Some ValueError
               end
             end
           else None
         end.
Proof.
  intros Hfind Hrecv.
  unfold iteration, bind, call_socket_find, call_recv, decode_utf8.
  rewrite Hfind. destruct err; [reflexivity|].
  cbn [fst snd sock with_sock logged]. rewrite Hrecv.
  destruct r as [data_recv|e]; [|reflexivity].
  destruct (Py.bytes_eqb (Py.slice_last data_recv) semicolon); [|reflexivity].
  cbn [negb].
  destruct (Py.decode (Py.slice_init data_recv)) as [msg|]; [|reflexivity].
  unfold ret. apply handle_message_raised.
Qed.

End Filter.

(** ** What an accepted message writes *)

Section Dispatch.
Context {Sock Dec Value : Type} {C : Capabilities Sock Dec Value}.

Local Abbreviation world := (World Sock Dec Value).

(** With a clock that is never set back, the stored timestamp stays
    behind the clock through every pass and every run. *)
Lemma stamped_iteration (w : world) :
  monotone_clock -> stamped w -> stamped (snd (iteration w)).
Proof.
  intros Hmono Hw. unfold stamped in *.
  destruct (iteration_cases w) as [[Hp Hk] | (msg & w2 & Hp & Hk & E)].
  - now rewrite Hp, Hk.
  - rewrite E.
    destruct (handle_message_cases msg w2) as [E' | [E' | [E' | [Hdf Hcrc]]]];
      try (rewrite E'; simpl; now rewrite Hp, Hk).
    rewrite (handle_message_accepted msg w2 Hdf Hcrc). simpl.
    apply Hmono. lia.
Qed.

Lemma stamped_run (n : nat) (w : world) :
  monotone_clock -> stamped w -> stamped (snd (decoder_daemon n w)).
Proof.
  intros Hmono. revert w. induction n as [|n IH]; intros w Hw; simpl; [exact Hw|].
  pose proof (stamped_iteration Hmono Hw) as Step.
  destruct (iteration w) as [r w']. simpl in Step.
  destruct (raised r); simpl; [exact Step | now apply IH].
Qed.

(** C2, as the code has it.  A message that reaches the decode stage has
    each of the three fields written with the value its getter returns,
    whatever the error flag beside it says: the flag is dropped at lines
    69 to 71.  A field whose decode succeeds holds the decoded value; a
    field whose decode fails holds the value returned with the failure,
    not the value it had before. *)
Theorem getter_value_is_stored_whatever_the_flag (msg : pystr) (w : world) :
  Py.downlink_format msg = Some 17 ->
  snd (msg_crc msg) = false ->
  icao (packet (snd (handle_message msg w)))
  = fst (get_icao (set_msg (decoder w) msg))
  /\ callsign (packet (snd (handle_message msg w)))
     = fst (get_callsign (set_msg (decoder w) msg))
  /\ altitude (packet (snd (handle_message msg w)))
     = fst (get_altitude (set_msg (decoder w) msg)).
Proof.
  intros Hdf Hcrc. rewrite (handle_message_accepted msg w Hdf Hcrc). simpl.
  repeat split.
Qed.

(** C5, as the code has it.  In a run of the loop under a wall clock that
    is never set back, a message of downlink format 17 that the checksum
    accepts has its identifier, callsign and altitude written from the
    decoder that was given the message, the message itself stored, and the
    timestamp set to the reading of the clock, which is then at least the
    timestamp held before. *)
Theorem accepted_message_is_written_and_stamped
  (n : nat) (w0 : world) (msg : pystr) :
  monotone_clock ->
  stamped w0 ->
  Py.downlink_format msg = Some 17 ->
  snd (msg_crc msg) = false ->
  let w := snd (decoder_daemon n w0) in
  let w' := snd (handle_message msg w) in
  decoder w' = set_msg (decoder w) msg
  /\ message (packet w') = msg
  /\ icao (packet w') = fst (get_icao (decoder w'))
  /\ callsign (packet w') = fst (get_callsign (decoder w'))
  /\ altitude (packet w') = fst (get_altitude (decoder w'))
  /\ timestamp (packet w') = now_ms (ticks w)
  /\ timestamp (packet w) <= timestamp (packet w').
Proof.
  intros Hmono H0 Hdf Hcrc w w'.
  assert (Hw : stamped w) by (apply stamped_run; assumption).
  subst w'. rewrite (handle_message_accepted msg w Hdf Hcrc). simpl.
  repeat split. exact Hw.
Qed.

(** C9.  With a deterministic decode capability, a validated frame
    delivered again leaves the message, the identifier, the callsign and
    the altitude of the shared packet as its first delivery left them; the
    same holds for a later delivery in any world [w']. *)
Theorem redelivery_leaves_the_same_fields (msg : pystr) (w : world) :
  deterministic_decoder ->
  Py.downlink_format msg = Some 17 ->
  snd (msg_crc msg) = false ->
  let first := snd (handle_message msg w) in
  let again (u : world) := packet (snd (handle_message msg u)) in
  (message (again first) = message (packet first)
   /\ icao (again first) = icao (packet first)
   /\ callsign (again first) = callsign (packet first)
   /\ altitude (again first) = altitude (packet first))
  /\ forall w' : world,
       message (again w') = message (packet first)
       /\ icao (again w') = icao (packet first)
       /\ callsign (again w') = callsign (packet first)
       /\ altitude (again w') = altitude (packet first).
Proof.
  intros Hdet Hdf Hcrc first again.
  assert (General : forall w' : world,
             message (again w') = message (packet first)
             /\ icao (again w') = icao (packet first)
             /\ callsign (again w') = callsign (packet first)
             /\ altitude (again w') = altitude (packet first)).
  { intros w'. subst first again. cbv beta.
    rewrite (handle_message_accepted msg w Hdf Hcrc).
    rewrite (handle_message_accepted msg w' Hdf Hcrc). simpl.
    destruct (Hdet (decoder w') (decoder w) msg) as (Hi & Hc & Ha).
    rewrite Hi, Hc, Ha. repeat split. }
  split; [apply General | exact General].
Qed.

End Dispatch.

(** ** The downlink format *)

(** A hexadecimal digit is an ASCII character. *)
Lemma hex_digit_below_128 (c : codepoint) (v : Z) :
  hex_digit c = Some v -> (c < 128)%N.
Proof.
  unfold hex_digit, Py.digit_value, Py.between. intros H.
  destruct (N.ltb_spec c 128) as [Hlt | Hge]; [exact Hlt | exfalso].
  assert (A : (c <=? 57)%N = false) by (apply N.leb_gt; lia).
  assert (B : (c <=? 122)%N = false) by (apply N.leb_gt; lia).
  assert (D : (c <=? 90)%N = false) by (apply N.leb_gt; lia).
  rewrite A, B, D in H. repeat rewrite andb_false_r in H. discriminate.
Qed.

Lemma below_128_in_range (c : codepoint) :
  (c < 128)%N -> In c (map N.of_nat (seq 0 128)).
Proof.
  intros H. rewrite <- (N2Nat.id c). apply in_map. apply in_seq. lia.
Qed.

Lemma int_16_two_hex_digits (U : Py.Unicode) (c1 c2 : codepoint) (hi lo : Z) :
  hex_digit c1 = Some hi ->
  hex_digit c2 = Some lo ->
  Py.int_16 [c1; c2] = Some (16 * hi + lo) /\ 0 <= hi <= 15 /\ 0 <= lo <= 15.
Proof.
  intros H1 H2.
  assert (All : forallb (fun a => forallb (two_digits_checked U a)
                                          (map N.of_nat (seq 0 128)))
                        (map N.of_nat (seq 0 128)) = true)
    by (vm_compute; reflexivity).
  rewrite forallb_forall in All.
  specialize (All c1 (below_128_in_range (hex_digit_below_128 c1 H1))).
  rewrite forallb_forall in All.
  specialize (All c2 (below_128_in_range (hex_digit_below_128 c2 H2))).
  unfold two_digits_checked in All. rewrite H1, H2 in All.
  destruct (Py.int_16 [c1; c2]) as [v|]; [|discriminate].
  repeat (apply andb_true_iff in All; destruct All as [All ?]).
  apply Z.eqb_eq in All. subst v.
  repeat match goal with E : (_ <=? _) = true |- _ => apply Z.leb_le in E end.
  repeat split; assumption.
Qed.

(** C7.  When the first two characters of a message are hexadecimal
    digits, the downlink format the loop derives is the byte they spell,
    shifted right by three bits; it lies between 0 and 31 and is the same
    for every message with the same first two characters, whatever the
    interpreter's Unicode tables. *)
Theorem downlink_format_is_header_byte_shifted
  (U : Py.Unicode) (msg : pystr) (b : Z) :
  header_byte msg = Some b ->
  Py.downlink_format msg = Some (Z.shiftr b 3)
  /\ (forall msg' : pystr,
        Py.slice_2 msg' = Py.slice_2 msg ->
        Py.downlink_format msg' = Some (Z.shiftr b 3))
  /\ 0 <= b <= 255
  /\ 0 <= Z.shiftr b 3 <= 31.
Proof.
  intros H.
  destruct msg as [|c1 [|c2 rest]]; try discriminate.
  unfold header_byte in H.
  destruct (hex_digit c1) as [hi|] eqn:H1; [|discriminate].
  destruct (hex_digit c2) as [lo|] eqn:H2; [|discriminate].
  assert (Hb : b = 16 * hi + lo) by congruence.
  clear H. subst b.
  destruct (int_16_two_hex_digits U c1 c2 H1 H2) as (Int & Hhi & Hlo).
  assert (Df : forall m : pystr,
             Py.slice_2 m = [c1; c2] ->
             Py.downlink_format m = Some (Z.shiftr (16 * hi + lo) 3)).
  { intros m Hm. unfold Py.downlink_format. rewrite Hm, Int. reflexivity. }
  split; [apply Df; reflexivity|].
  split; [intros msg' Hm; apply Df; rewrite Hm; reflexivity|].
  split; [lia|].
  rewrite Z.shiftr_div_pow2 by lia. change (2 ^ 3) with 8.
  split; [apply Z.div_pos; lia|].
  assert ((16 * hi + lo) / 8 < 32) by (apply Z.div_lt_upper_bound; lia).
  lia.
Qed.

(** ** Connecting to the feed *)


(** ** Runs on concrete streams *)

Section Runs.
Import Sample.

(** C4, against the claim as stated.  A frame whose header is no
    hexadecimal text raises [ValueError] at line 55, so does a chunk made
    of the terminator alone, and a payload that is no UTF-8 raises
    [UnicodeDecodeError] at line 53.  Nothing in [decoder_daemon] catches
    them: the thread ends, and the well-formed frame that follows on the
    wire is not decoded in the passes the loop would have had. *)
Lemma malformed_payload_ends_the_loop :
  fst (iteration (C := steady) (boot [Chunk (frame garbled)]))
  = inr (Raise ValueError)
  /\ fst (iteration (C := steady) (boot feed_short)) = inr (Raise ValueError)
  /\ fst (iteration (C := steady) (boot feed_not_utf8))
     = inr (Raise UnicodeDecodeError)
  /\ fst (decoder_daemon (C := steady) 5
            (boot [Chunk (frame garbled ++ frame identification)]))
     = Some ValueError
  /\ packet (snd (decoder_daemon (C := steady) 5
                    (boot [Chunk (frame garbled ++ frame identification)])))
     = ADSBPacket_new VNone.
Proof.
  repeat split; vm_compute; reflexivity.
Qed.

(** C2, against the claim as stated.  An identification message sets the
    callsign; the position message that follows has no callsign to decode,
    its getter reports the failure, and the callsign of the packet is
    overwritten with what the getter returned instead of being kept. *)
Lemma failed_decode_overwrites_the_field :
  let w1 := snd (decoder_daemon (C := steady) 1 (boot feed_two)) in
  let w2 := snd (decoder_daemon (C := steady) 2 (boot feed_two)) in
  message (packet w2) = Py.ascii position
  /\ snd (get_callsign (Capabilities := steady) (decoder w2)) = true
  /\ callsign (packet w1) = VStr (Py.ascii "2CC371C32CE0")
  /\ callsign (packet w2) <> callsign (packet w1).
Proof.
  cbv zeta. repeat split; try (vm_compute; reflexivity).
  vm_compute. discriminate.
Qed.

(** C3, against the claim as stated.  A Comm-B reply has downlink format
    20, not 17, and the checksum is called on it all the same. *)
Lemma msg_crc_is_called_on_format_20 :
  let w := boot [Chunk (frame comm_b)] in
  Py.downlink_format (Py.ascii comm_b) = Some 20
  /\ Py.downlink_format (Py.ascii comm_b) <> Some 17
  /\ calls (snd (iteration (C := steady) w))
     = [CallSocketFind star; CallRecv 29; CallMsgCrc (Py.ascii comm_b)]
  /\ In (CallMsgCrc (Py.ascii comm_b)) (calls (snd (iteration (C := steady) w))).
Proof.
  cbv zeta. repeat split; try (vm_compute; reflexivity).
  - vm_compute. discriminate.
  - vm_compute. right; right; left. reflexivity.
Qed.

(** C5, against the claim as stated.  The wall clock is set back by a
    second between two accepted messages: the second update leaves a
    timestamp smaller than the one it found. *)
Lemma timestamp_goes_back_with_the_clock :
  let w1 := snd (decoder_daemon (C := capabilities stepped_clock) 1 (boot feed_two)) in
  let w2 := snd (decoder_daemon (C := capabilities stepped_clock) 2 (boot feed_two)) in
  message (packet w2) = Py.ascii position
  /\ Py.downlink_format (Py.ascii position) = Some 17
  /\ snd (msg_crc (Capabilities := capabilities stepped_clock) (Py.ascii position)) = false
  /\ timestamp (packet w1) = 1700000002000
  /\ timestamp (packet w2) = 1700000001000
  /\ ~ timestamp (packet w1) <= timestamp (packet w2).
Proof.
  cbv zeta. repeat split; try (vm_compute; reflexivity).
  vm_compute. intros H. apply H. reflexivity.
Qed.


End Runs.

(** ** The statements at work on the sample world *)

Section Instances.
Import Sample.

(** A message of format 17 with a damaged last character is refused by
    the checksum and leaves the packet of a fresh world alone. *)
Lemma packet_untouched_on_damaged_message :
  snd (msg_crc (Capabilities := steady) (Py.ascii damaged)) = true
  /\ packet (snd (handle_message (C := steady) (Py.ascii damaged) (boot [])))
     = packet (boot []).
Proof.
  split; [reflexivity|].
  apply (packet_untouched_unless_df17_and_crc_ok (C := steady)
           (Py.ascii damaged) (boot [])).
  right. reflexivity.
Defined.

(** The position message after the identification message: the getters'
    values are stored, the callsign's with its failure flag set. *)
Lemma getter_values_stored_for_position_message :
  let w := snd (decoder_daemon (C := steady) 1 (boot feed_two)) in
  Py.downlink_format (Py.ascii position) = Some 17
  /\ snd (msg_crc (Capabilities := steady) (Py.ascii position)) = false
  /\ snd (get_callsign (Capabilities := steady)
            (set_msg (Capabilities := steady) (decoder w) (Py.ascii position)))
     = true
  /\ callsign (packet (snd (handle_message (C := steady) (Py.ascii position) w)))
     = fst (get_callsign (Capabilities := steady)
              (set_msg (Capabilities := steady) (decoder w) (Py.ascii position))).
Proof.
  intros w.
  split; [reflexivity|]. split; [reflexivity|]. split; [reflexivity|].
  apply (getter_value_is_stored_whatever_the_flag (C := steady)
           (Py.ascii position) w); reflexivity.
Defined.

(** The Comm-B reply: one call of the checksum, packet untouched. *)
Lemma msg_crc_called_once_on_comm_b :
  Py.downlink_format (Py.ascii comm_b) <> Some 17
  /\ packet (snd (handle_message (C := steady) (Py.ascii comm_b) (boot [])))
     = packet (boot []).
Proof.
  assert (H : Py.downlink_format (Py.ascii comm_b) <> Some 17)
    by (vm_compute; discriminate).
  split; [exact H|].
  apply (msg_crc_called_on_20_21_only (C := steady) (Py.ascii comm_b) (boot []) H).
Defined.

(** Two messages under the steady clock: the second update moves the
    timestamp forward. *)
Lemma position_message_is_written_and_stamped :
  let w := snd (decoder_daemon (C := steady) 1 (boot feed_two)) in
  let w' := snd (handle_message (C := steady) (Py.ascii position) w) in
  monotone_clock (C := steady)
  /\ stamped (C := steady) (boot feed_two)
  /\ timestamp (packet w) <= timestamp (packet w').
Proof.
  intros w w'.
  assert (Hmono : monotone_clock (C := steady)).
  { intros i j Hij. simpl. unfold steady_clock. lia. }
  assert (H0 : stamped (C := steady) (boot feed_two)).
  { unfold stamped. simpl. unfold steady_clock. lia. }
  split; [exact Hmono|]. split; [exact H0|].
  apply (accepted_message_is_written_and_stamped (C := steady)
           1 (w0 := boot feed_two) (Py.ascii position) Hmono H0);
    reflexivity.
Defined.

(** The frame whose terminator became a comma. *)
Lemma corrupted_terminator_is_discarded :
  let w := boot feed_bad_terminator in
  Py.slice_last (wire (String.append identification ",")) <> semicolon
  /\ fst (iteration (C := steady) w) = inr Continue
  /\ packet (snd (iteration (C := steady) w)) = packet w.
Proof.
  intros w.
  assert (Hlast : Py.slice_last (wire (String.append identification ","))
                  <> semicolon) by (vm_compute; discriminate).
  split; [exact Hlast|].
  destruct (frame_without_terminator_is_discarded (C := steady) w
              (found := VStr [42%N])
              (s1 := [Chunk (wire (String.append identification ","))])
              (s2 := [])
              (data_recv := wire (String.append identification ","))
              eq_refl eq_refl Hlast) as (Hc & Hp & _).
  split; [exact Hc | exact Hp].
Defined.

(** The identification message: header [8D], byte 141, format 17. *)
Lemma identification_has_format_17 :
  header_byte (Py.ascii identification) = Some 141
  /\ Py.downlink_format (Py.ascii identification) = Some 17.
Proof.
  split; [reflexivity|].
  destruct (downlink_format_is_header_byte_shifted unicode_excerpt
              (Py.ascii identification) (b := 141) eq_refl) as (Hdf & _).
  exact Hdf.
Defined.


(** The identification message delivered twice. *)
Lemma identification_delivered_twice :
  let first := snd (handle_message (C := steady) (Py.ascii identification) (boot [])) in
  let second := snd (handle_message (C := steady) (Py.ascii identification) first) in
  deterministic_decoder (C := steady)
  /\ icao (packet second) = icao (packet first)
  /\ callsign (packet second) = callsign (packet first).
Proof.
  intros first second.
  assert (Hdet : deterministic_decoder (C := steady)).
  { intros d d' msg. repeat split. }
  split; [exact Hdet|].
  destruct (redelivery_leaves_the_same_fields (C := steady)
              (Py.ascii identification) (boot []) Hdet eq_refl eq_refl)
    as ((_ & Hi & Hc & _) & _).
  split; [exact Hi | exact Hc].
Defined.

(** The first pass over two well-formed frames does not raise. *)
Lemma well_formed_frame_does_not_raise :
  let w := boot feed_two in
  let found := socket_find (Capabilities := steady) (sock w) star in
  let got := recv (Capabilities := steady) (snd found) 29 in
  snd (fst found) = false
  /\ fst got = Received (wire (String.append identification ";"))
  /\ raised (fst (iteration (C := steady) w)) = None.
Proof.
  intros w found got.
  split; [reflexivity|]. split; [reflexivity|].
  apply (iteration_raises_exactly_on_bad_payload (C := steady) w
           (found := fst (fst found)) (err := false)
           (s1 := snd found) (s2 := snd got) (r := fst got)
           eq_refl eq_refl).
Defined.

(** The invariant through the first pass over two frames. *)
Lemma message_validated_after_first_pass :
  message_validated (C := steady) (packet (boot feed_two))
  /\ message_validated (C := steady)
       (packet (snd (iteration (C := steady) (boot feed_two)))).
Proof.
  assert (H : message_validated (C := steady) (packet (boot feed_two)))
    by (left; reflexivity).
  split; [exact H|].
  apply (message_validated_is_invariant (C := steady) (boot feed_two) H).
Defined.

End Instances.

(** * Further properties of the loop *)

(** ** Slices and ASCII text *)

Lemma slice_last_app (b : bytes) (x : byte) : Py.slice_last (b ++ [x]) = [x].
Proof.
  unfold Py.slice_last. rewrite rev_app_distr. reflexivity.
Qed.

Lemma slice_init_app (b : bytes) (x : byte) : Py.slice_init (b ++ [x]) = b.
Proof.
  unfold Py.slice_init. apply removelast_last.
Qed.

(** Bytes below 128 decode to themselves. *)
Lemma utf8_decode_ascii (bs : list N) :
  Forall (fun b => (b < 128)%N) bs -> Py.utf8_decode bs = Some bs.
Proof.
  induction 1 as [|b bs Hb _ IH]; [reflexivity|].
  cbn [Py.utf8_decode].
  replace (b <=? 0x7F)%N with true by (symmetry; apply N.leb_le; lia).
  rewrite IH. reflexivity.
Qed.

Lemma decode_ascii (b : bytes) :
  Forall (fun x => (Byte.to_N x < 128)%N) b ->
  Py.decode b = Some (map Byte.to_N b).
Proof.
  intros H. unfold Py.decode. apply utf8_decode_ascii.
  apply Forall_map. exact H.
Qed.

Section Passes.
Context {Sock Dec Value : Type} {C : Capabilities Sock Dec Value}.

Local Abbreviation world := (World Sock Dec Value).

(** A pass seen whole: where it ends, what it leaves of the world and
    what it has called. *)
Lemma iteration_shape (w : world) :
  (fst (iteration w) <> inl tt
   /\ packet (snd (iteration w)) = packet w
   /\ decoder (snd (iteration w)) = decoder w
   /\ ticks (snd (iteration w)) = ticks w
   /\ (calls (snd (iteration w)) = calls w ++ [CallSocketFind star]
       \/ calls (snd (iteration w)) = calls w ++ [CallSocketFind star; CallRecv 29]
       \/ exists msg : pystr,
            calls (snd (iteration w))
            = calls w ++ [CallSocketFind star; CallRecv 29; CallMsgCrc msg]))
  \/ exists msg : pystr,
       fst (iteration w) = inl tt
       /\ Py.downlink_format msg = Some 17
       /\ snd (msg_crc msg) = false
       /\ packet (snd (iteration w))
          = {| message := msg;
               icao := fst (get_icao (set_msg (decoder w) msg));
               callsign := fst (get_callsign (set_msg (decoder w) msg));
               altitude := fst (get_altitude (set_msg (decoder w) msg));
               timestamp := now_ms (ticks w) |}
       /\ decoder (snd (iteration w)) = set_msg (decoder w) msg
       /\ ticks (snd (iteration w)) = S (ticks w)
       /\ calls (snd (iteration w))
          = calls w ++ [CallSocketFind star; CallRecv 29; CallMsgCrc msg;
                        CallSetMsg msg; CallGetIcao; CallGetCallsign;
                        CallGetAltitude; CallNow].
Proof.
  destruct w as [s p d k l].
  unfold iteration, bind, call_socket_find, call_recv, decode_utf8.
  cbn [sock packet decoder ticks calls].
  destruct (socket_find s star) as [[r err] s1].
  destruct err.
  { left. cbn. repeat split; try discriminate. now left. }
  cbn [fst snd sock with_sock logged packet decoder ticks calls].
  destruct (recv s1 29) as [[data|e] s2].
  2:{ left. cbn. repeat split; try discriminate. right; left.
      now rewrite <- app_assoc. }
  destruct (negb (Py.bytes_eqb (Py.slice_last data) semicolon)).
  { left. cbn. repeat split; try discriminate. right; left.
    now rewrite <- app_assoc. }
  destruct (Py.decode (Py.slice_init data)) as [msg|].
  2:{ left. cbn. repeat split; try discriminate. right; left.
      now rewrite <- app_assoc. }
  unfold ret.
  match goal with |- context [handle_message msg ?u] => set (w2 := u) end.
  destruct (handle_message_cases msg w2) as [E | [E | [E | [Hdf Hcrc]]]].
  - left. rewrite E. subst w2. cbn. repeat split; try discriminate.
    right; left. now rewrite <- app_assoc.
  - left. rewrite E. subst w2. cbn. repeat split; try discriminate.
    right; left. now rewrite <- app_assoc.
  - left. rewrite E. subst w2. cbn. repeat split; try discriminate.
    right; right. exists msg. now repeat rewrite <- app_assoc.
  - right. exists msg. rewrite (handle_message_accepted msg w2 Hdf Hcrc).
    subst w2. cbn. repeat split; try assumption.
    now repeat rewrite <- app_assoc.
Qed.

(** X1.  A well-formed frame is stored verbatim.  When the scan finds the
    start sentinel and [recv] hands over an ASCII payload followed by the
    terminator, the text the loop works on is exactly the payload
    ([data_recv[:-1]] decoded); if its format is 17 and the checksum
    accepts it, the pass runs to its last line and leaves that text in
    the message field, the getters' values in the three decoded fields
    and the clock's reading in the timestamp.  The payload's length is
    not looked at. *)
Theorem well_formed_frame_is_stored_verbatim
  (w : world) (found : Value) (s1 s2 : Sock) (payload : bytes) :
  socket_find (sock w) star = ((found, false), s1) ->
  recv s1 29 = (Received (payload ++ semicolon), s2) ->
  Forall (fun x => (Byte.to_N x < 128)%N) payload ->
  Py.downlink_format (map Byte.to_N payload) = Some 17 ->
  snd (msg_crc (map Byte.to_N payload)) = false ->
  fst (iteration w) = inl tt
  /\ packet (snd (iteration w))
     = {| message := map Byte.to_N payload;
          icao := fst (get_icao (set_msg (decoder w) (map Byte.to_N payload)));
          callsign := fst (get_callsign (set_msg (decoder w) (map Byte.to_N payload)));
          altitude := fst (get_altitude (set_msg (decoder w) (map Byte.to_N payload)));
          timestamp := now_ms (ticks w) |}
  /\ decoder (snd (iteration w)) = set_msg (decoder w) (map Byte.to_N payload)
  /\ sock (snd (iteration w)) = s2.
Proof.
  intros Hfind Hrecv Hascii Hdf Hcrc.
  destruct w as [s p d k l]. cbn [sock] in Hfind.
  unfold iteration, bind, call_socket_find, call_recv, decode_utf8.
  cbn [sock packet decoder ticks calls]. rewrite Hfind.
  cbn [fst snd sock with_sock logged packet decoder ticks calls].
  rewrite Hrecv.
  change (payload ++ semicolon) with (payload ++ [";"%byte]).
  rewrite slice_last_app, slice_init_app.
  change (Py.bytes_eqb [";"%byte] semicolon) with true. cbn [negb].
  rewrite (decode_ascii Hascii). unfold ret.
  rewrite (handle_message_accepted _ _ Hdf Hcrc). cbn. repeat split.
Qed.

(** X3.  The calls of a pass follow one of four scripts, each a prefix of
    the last: the scan alone; the scan and one [recv] of 29 bytes; these
    and one checksum; these and [set_msg] on the message just checked,
    the three getters in the order icao, callsign, altitude, and one
    reading of the clock.  The decoder is given a message only after the
    checksum has accepted it with format 17, and never more than one
    [recv] is made in a pass. *)
Theorem pass_follows_one_of_four_scripts (w : world) :
  exists script : list call,
    calls (snd (iteration w)) = calls w ++ script
    /\ (script = [CallSocketFind star]
        \/ script = [CallSocketFind star; CallRecv 29]
        \/ (exists msg : pystr,
              script = [CallSocketFind star; CallRecv 29; CallMsgCrc msg])
        \/ (exists msg : pystr,
              script = [CallSocketFind star; CallRecv 29; CallMsgCrc msg;
                        CallSetMsg msg; CallGetIcao; CallGetCallsign;
                        CallGetAltitude; CallNow]
              /\ Py.downlink_format msg = Some 17
              /\ snd (msg_crc msg) = false)).
Proof.
  destruct (iteration_shape w)
    as [(_ & _ & _ & _ & [E | [E | [msg E]]])
       | (msg & _ & Hdf & Hcrc & _ & _ & _ & E)];
    eexists; (split; [exact E|]).
  - now left.
  - right; now left.
  - right; right; left. now exists msg.
  - right; right; right. exists msg. now repeat split.
Qed.

(** X4.  A pass is all or nothing.  Either it runs to its last line, and
    then a message of format 17 accepted by the checksum has been given
    to the decoder and all five fields of the packet have been written
    from it; or it ends early, by [continue] or by an exception, and then
    the packet, the decoder object and the clock are as they were. *)
Theorem pass_is_all_or_nothing (w : world) :
  (fst (iteration w) = inl tt
   /\ exists msg : pystr,
        Py.downlink_format msg = Some 17
        /\ snd (msg_crc msg) = false
        /\ decoder (snd (iteration w)) = set_msg (decoder w) msg
        /\ message (packet (snd (iteration w))) = msg
        /\ coherent (snd (iteration w))
        /\ timestamp (packet (snd (iteration w))) = now_ms (ticks w)
        /\ ticks (snd (iteration w)) = S (ticks w))
  \/ (fst (iteration w) <> inl tt
      /\ packet (snd (iteration w)) = packet w
      /\ decoder (snd (iteration w)) = decoder w
      /\ ticks (snd (iteration w)) = ticks w).
Proof.
  destruct (iteration_shape w)
    as [(Hend & Hp & Hd & Hk & _)
       | (msg & Hend & Hdf & Hcrc & Hp & Hd & Hk & _)].
  - right. now repeat split.
  - left. split; [exact Hend|]. exists msg.
    unfold coherent. rewrite Hp, Hd. cbn. now repeat split.
Qed.

(** After a pass the packet is coherent with the decoder, or both are as
    they were. *)
Lemma pass_shape_coherent (w : world) :
  coherent (snd (iteration w))
  \/ (packet (snd (iteration w)) = packet w
      /\ decoder (snd (iteration w)) = decoder w).
Proof.
  destruct (iteration_shape w)
    as [(_ & Hp & Hd & _) | (msg & _ & _ & _ & Hp & Hd & _)].
  - right. now split.
  - left. unfold coherent. rewrite Hp, Hd. cbn. now repeat split.
Qed.

(** X5.  Coherence of packet and decoder is an invariant of the loop:
    once the identifier, callsign and altitude of the packet are what the
    getters return for the decoder's message, they stay so through every
    pass and every run, whatever arrives on the wire. *)
Theorem coherent_is_invariant (w : world) :
  coherent w ->
  coherent (snd (iteration w))
  /\ forall n : nat, coherent (snd (decoder_daemon n w)).
Proof.
  assert (Step : forall u : world, coherent u -> coherent (snd (iteration u))).
  { intros u Hu.
    destruct (pass_shape_coherent u) as [H | H]; [exact H|].
    destruct H as (Hp & Hd). unfold coherent in *. now rewrite Hp, Hd. }
  intros Hw. split; [now apply Step|].
  intros n. revert w Hw. induction n as [|n IH]; intros w Hw; simpl; [exact Hw|].
  specialize (Step w Hw).
  destruct (iteration w) as [r w']. simpl in Step.
  destruct (raised r); simpl; [exact Step | now apply IH].
Qed.

End Passes.

Section Spin.
Context {Sock Dec Value : Type} {C : Capabilities Sock Dec Value}.

Local Abbreviation world := (World Sock Dec Value).

(** A scan that reports an error ends the pass at line 48. *)
Lemma iteration_scan_error (w : world) (v : Value) (s1 : Sock) :
  socket_find (sock w) star = ((v, true), s1) ->
  iteration w = (inr Continue, with_sock s1 (logged (CallSocketFind star) w)).
Proof.
  intros H. unfold iteration, bind, call_socket_find. rewrite H. reflexivity.
Qed.

(** X6.  A scan that keeps failing makes the loop spin.  On a socket
    whose every scan reports an error (a stream that is down for good),
    the loop never ends and never raises: however many passes it is
    given, it is still running, it has called nothing but [socket_find],
    once per pass, and the packet, the decoder and the clock are as they
    were. *)
Theorem failing_scan_spins (dead : Sock -> Prop) (w : world) :
  (forall s : Sock,
      dead s ->
      snd (fst (socket_find s star)) = true /\ dead (snd (socket_find s star))) ->
  dead (sock w) ->
  forall n : nat,
    fst (decoder_daemon n w) = None
    /\ packet (snd (decoder_daemon n w)) = packet w
    /\ decoder (snd (decoder_daemon n w)) = decoder w
    /\ ticks (snd (decoder_daemon n w)) = ticks w
    /\ calls (snd (decoder_daemon n w))
       = calls w ++ repeat (CallSocketFind star) n.
Proof.
  intros Hdead Hw n. revert w Hw.
  induction n as [|n IH]; intros w Hw.
  - simpl. rewrite app_nil_r. now repeat split.
  - destruct (Hdead _ Hw) as [Herr Hnext].
    destruct (socket_find (sock w) star) as [[v err] s1] eqn:Hfind.
    simpl in Herr, Hnext. subst err.
    cbn [decoder_daemon]. rewrite (iteration_scan_error w Hfind).
    cbn [raised].
    destruct (IH (with_sock s1 (logged (CallSocketFind star) w)) Hnext)
      as (H1 & H2 & H3 & H4 & H5).
    rewrite H1, H2, H3, H4, H5. cbn. rewrite <- app_assoc.
    now repeat split.
Qed.

End Spin.

(** ** Which headers pass the filter *)

(** X2.  Among ASCII headers only 88 to 8F pass as format 17.  For a
    message whose first two characters are ASCII, the loop derives the
    format 17 exactly when the message starts with the digit 8 followed
    by a hexadecimal digit from 8 to F, in either case: none of the other
    texts [int] accepts (a sign, blanks, a single digit) gets a message
    through, and neither does a message of fewer than two characters. *)
Theorem format_17_headers (U : Py.Unicode) (msg : pystr) :
  Forall (fun c => (c < 128)%N) (Py.slice_2 msg) ->
  (Py.downlink_format msg = Some 17
   <-> exists (c2 : codepoint) (rest : pystr) (lo : Z),
         msg = 56%N :: c2 :: rest /\ hex_digit c2 = Some lo /\ 8 <= lo).
Proof.
  intros Hascii.
  assert (Iff : Py.downlink_format msg = Some 17 <-> is_format_17 U msg = true).
  { unfold is_format_17. destruct (Py.downlink_format msg) as [df|].
    - split; [intros [= ->]; reflexivity | intros H; apply Z.eqb_eq in H; now subst].
    - split; discriminate. }
  rewrite Iff. clear Iff.
  destruct msg as [|c1 [|c2 rest]].
  - split; [discriminate|]. intros (c2 & rest & lo & H & _). discriminate.
  - split; [|intros (c2 & rest & lo & H & _); discriminate].
    assert (All : forallb (fun c => negb (is_format_17 U [c]))
                          (map N.of_nat (seq 0 128)) = true)
      by (vm_compute; reflexivity).
    rewrite forallb_forall in All.
    apply Forall_inv in Hascii.
    specialize (All c1 (below_128_in_range Hascii)).
    intros H. rewrite H in All. discriminate.
  - assert (All : forallb
                    (fun a => forallb
                                (fun b => Bool.eqb (is_format_17 U [a; b])
                                                   (header_88_8F a b))
                                (map N.of_nat (seq 0 128)))
                    (map N.of_nat (seq 0 128)) = true)
      by (vm_compute; reflexivity).
    rewrite forallb_forall in All.
    cbn [Py.slice_2 firstn] in Hascii.
    pose proof (Forall_inv Hascii) as H1.
    pose proof (Forall_inv (Forall_inv_tail Hascii)) as H2.
    specialize (All c1 (below_128_in_range H1)).
    rewrite forallb_forall in All.
    specialize (All c2 (below_128_in_range H2)).
    apply Bool.eqb_prop in All.
    change (is_format_17 U (c1 :: c2 :: rest)) with (is_format_17 U [c1; c2]).
    rewrite All. unfold header_88_8F. split.
    + intros H. apply andb_true_iff in H as [Hc Hlo].
      apply N.eqb_eq in Hc. subst c1.
      destruct (hex_digit c2) as [lo|] eqn:Hh; [|discriminate].
      apply Z.leb_le in Hlo. now exists c2, rest, lo.
    + intros (c2' & rest' & lo & [= -> -> ->] & Hh & Hlo).
      rewrite Hh. simpl. now apply Z.leb_le.
Qed.

(** ** More on [connect_tcpserver] *)


(** * Properties of [main] *)

Section MainFacts.
Context {Router Flag : Type} {D : Deployment Router Flag} {Net : Network}.

Local Abbreviation trace := (list (event Router Flag)).

Lemma net_calls_app (a b : trace) : net_calls (a ++ b) = net_calls a ++ net_calls b.
Proof.
  induction a as [|x a IH]; [reflexivity|].
  destruct x; simpl; rewrite IH; reflexivity.
Qed.

Lemma net_calls_map_NetCall (l : list net_call) :
  net_calls (map (@NetCall Router Flag) l) = l.
Proof.
  induction l as [|x l IH]; [reflexivity|]. simpl. now rewrite IH.
Qed.

Lemma net_calls_map_Route (rs : list Router) :
  net_calls (map (@Route Router Flag) rs) = [].
Proof.
  induction rs as [|x rs IH]; [reflexivity|]. exact IH.
Qed.

Lemma routes_app (a b : trace) : routes (a ++ b) = routes a ++ routes b.
Proof.
  induction a as [|x a IH]; [reflexivity|].
  destruct x; simpl; rewrite IH; reflexivity.
Qed.

Lemma routes_map_Route (rs : list Router) :
  routes (map (@Route Router Flag) rs) = rs.
Proof.
  induction rs as [|x rs IH]; [reflexivity|]. simpl. now rewrite IH.
Qed.

Lemma routes_map_NetCall (l : list net_call) :
  routes (map (@NetCall Router Flag) l) = [].
Proof.
  induction l as [|x l IH]; [reflexivity|]. exact IH.
Qed.

(** The ways through [main], with the trace of each. *)
Lemma main_cases :
  let conf := snd (conf_parse args_path) in
  let host := source_host (source conf) in
  let port := source_port (source conf) in
  let timeout := source_timeout (source conf) in
  let started : trace :=
    [DictConfig; GetLogger "global_logger"; ArgsParse; ConfParse args_path] in
  let endpoint := String.append host (String.append ":" (str port)) in
  (fst (conf_parse args_path) = true
   /\ main = (SystemExit 1, started ++ [LogInfo "Failed to parse config"]))
  \/ (fst (conf_parse args_path) = false
      /\ exists e : exn,
           socket_outcome = Some e
           /\ main = (Uncaught e,
                      started ++ [LogInfo "Connecting to ADS-B server..."]
                      ++ [NetCall NewSocket]))
  \/ (fst (conf_parse args_path) = false
      /\ socket_outcome = None
      /\ exists e : exn,
           settimeout timeout = Some e
           /\ main = (Uncaught e,
                      started ++ [LogInfo "Connecting to ADS-B server..."]
                      ++ [NetCall NewSocket; NetCall (SetTimeout timeout)]))
  \/ (fst (conf_parse args_path) = false
      /\ socket_outcome = None
      /\ settimeout timeout = None
      /\ connect_outcome host port timeout <> None
      /\ main = (SystemExit 1,
                 started ++ [LogInfo "Connecting to ADS-B server..."]
                 ++ [NetCall NewSocket; NetCall (SetTimeout timeout);
                     NetCall (Connect host port)]
                 ++ [LogInfo (String.append "Failed to connect to " endpoint)]))
  \/ (fst (conf_parse args_path) = false
      /\ socket_outcome = None
      /\ settimeout timeout = None
      /\ connect_outcome host port timeout = None
      /\ main = (Served,
                 started ++ [LogInfo "Connecting to ADS-B server..."]
                 ++ [NetCall NewSocket; NetCall (SetTimeout timeout);
                     NetCall (Connect host port)]
                 ++ [LogInfo (String.append "Connected to " endpoint);
                     NewPacket; NewDecoder; NewPublisher;
                     StartThread {| sk_timeout := Some timeout;
                                    sk_connected := true |};
                     NewServer (server_host (server conf))
                               (server_port (server conf))
                               (server_cors (server conf))
                               (server_debug (server conf));
                     On "shutdown"
                        (graceful_shutdown {| sk_timeout := Some timeout;
                                              sk_connected := true |})]
                 ++ map Route API_ROUTERS
                 ++ [Static "/" "./view"; ServerStart])).
Proof.
  intros conf host port timeout started endpoint.
  subst conf host port timeout endpoint started.
  unfold main, connect_tcpserver.
  destruct (conf_parse args_path) as [err conf]. cbn [fst snd].
  destruct err; [left; now split|]. right.
  destruct socket_outcome as [e|] eqn:Hs.
  { left. split; [reflexivity|]. exists e. split; [reflexivity|].
    cbn [map]. now rewrite <- !app_assoc. }
  right.
  destruct (settimeout (source_timeout (source conf))) as [e|] eqn:Ht.
  { left. split; [reflexivity|]. split; [reflexivity|].
    exists e. split; [reflexivity|].
    cbn [map]. now rewrite <- !app_assoc. }
  right.
  destruct (connect_outcome (source_host (source conf))
              (source_port (source conf)) (source_timeout (source conf)))
    as [e|] eqn:Hc.
  - left. repeat split; try discriminate;
      try (cbn [map]; now rewrite <- !app_assoc).
  - right. repeat split;
      try (cbn [map sk_timeout]; now rewrite <- !app_assoc).
Qed.

(** X8.  When [main] calls [exit] the status is 1, and neither the
    decoder thread nor the HTTP server has been started.  It happens in
    two cases only: the configuration could not be parsed, and then
    nothing was asked of the network; or the one connection attempt
    failed, and then the last thing logged names the host and the port
    that did not answer. *)
Theorem main_exits_with_status_1_before_starting (code : Z) :
  fst main = SystemExit code ->
  code = 1
  /\ (forall sk : socket, ~ In (StartThread sk) (snd main))
  /\ ~ In ServerStart (snd main)
  /\ ((fst (conf_parse args_path) = true /\ net_calls (snd main) = [])
      \/ (fst (conf_parse args_path) = false
          /\ attempts (net_calls (snd main)) = 1%nat
          /\ connect_outcome
               (source_host (source (snd (conf_parse args_path))))
               (source_port (source (snd (conf_parse args_path))))
               (source_timeout (source (snd (conf_parse args_path)))) <> None
          /\ last (snd main) DictConfig
             = LogInfo
                 (String.append "Failed to connect to "
                    (String.append
                       (source_host (source (snd (conf_parse args_path))))
                       (String.append ":"
                          (str (source_port
                                  (source (snd (conf_parse args_path)))))))))).
Proof.
  intros Hend.
  destruct main_cases
    as [(Herr & E)
       | [(Herr & e & Hs & E)
         | [(Herr & Hs & e & Ht & E)
           | [(Herr & Hs & Ht & Hc & E) | (Herr & Hs & Ht & Hc & E)]]]];
    rewrite E in Hend |- *; cbn [fst snd] in Hend |- *;
    try discriminate; injection Hend as <-.
  - split; [reflexivity|]. split; [|split].
    + intros sk H. cbn [In app] in H. intuition discriminate.
    + intros H. cbn [In app] in H. intuition discriminate.
    + left. now split.
  - split; [reflexivity|]. split; [|split].
    + intros sk H. cbn [In app] in H. intuition discriminate.
    + intros H. cbn [In app] in H. intuition discriminate.
    + right. repeat split; assumption.
Qed.

(** X9.  The HTTP server is started only behind a running feed.  If
    [server.start] is reached, the configuration was parsed, exactly one
    connection attempt was made and it succeeded, and the decoder thread
    was started on the connected socket, which carries the configured
    timeout and is the very socket the shutdown handler will close. *)
Theorem main_serves_only_when_connected :
  In ServerStart (snd main) ->
  fst main = Served
  /\ fst (conf_parse args_path) = false
  /\ attempts (net_calls (snd main)) = 1%nat
  /\ exists sk : socket,
       sk_connected sk = true
       /\ sk_timeout sk
          = Some (source_timeout (source (snd (conf_parse args_path))))
       /\ In (StartThread sk) (snd main)
       /\ In (On "shutdown" (graceful_shutdown sk)) (snd main).
Proof.
  intros Hstart.
  destruct main_cases
    as [(Herr & E)
       | [(Herr & e & Hs & E)
         | [(Herr & Hs & e & Ht & E)
           | [(Herr & Hs & Ht & Hc & E) | (Herr & Hs & Ht & Hc & E)]]]];
    rewrite E in Hstart |- *; cbn [fst snd] in Hstart |- *.
  - cbn [In app] in Hstart. intuition discriminate.
  - cbn [In app] in Hstart. intuition discriminate.
  - cbn [In app] in Hstart. intuition discriminate.
  - cbn [In app] in Hstart. intuition discriminate.
  - split; [reflexivity|]. split; [exact Herr|]. split.
    + rewrite !net_calls_app, net_calls_map_Route. reflexivity.
    + exists {| sk_timeout :=
                  Some (source_timeout (source (snd (conf_parse args_path))));
                sk_connected := true |}.
      split; [reflexivity|]. split; [reflexivity|].
      split; rewrite !in_app_iff; cbn [In]; tauto.
Qed.

(** X10.  When [main] gets as far as serving, it has registered every
    router of [API_ROUTERS], each once and in the order of the list,
    after the shutdown handler and before the static files are mounted
    and the server is started. *)
Theorem main_registers_every_router_in_order :
  fst main = Served ->
  routes (snd main) = API_ROUTERS
  /\ exists (before : list (event Router Flag)) (sk : socket),
       snd main
       = before ++ [On "shutdown" (graceful_shutdown sk)]
         ++ map Route API_ROUTERS ++ [Static "/" "./view"; ServerStart]
       /\ routes before = [].
Proof.
  intros Hend.
  destruct main_cases
    as [(Herr & E)
       | [(Herr & e & Hs & E)
         | [(Herr & Hs & e & Ht & E)
           | [(Herr & Hs & Ht & Hc & E) | (Herr & Hs & Ht & Hc & E)]]]];
    rewrite E in Hend |- *; cbn [fst snd] in Hend |- *; try discriminate.
  split.
  - rewrite !routes_app, routes_map_Route. cbn [routes app]. now rewrite app_nil_r.
  - set (conf := snd (conf_parse args_path)).
    set (sk := {| sk_timeout := Some (source_timeout (source conf));
                  sk_connected := true |}).
    exists [DictConfig; GetLogger "global_logger"; ArgsParse;
            ConfParse args_path; LogInfo "Connecting to ADS-B server...";
            NetCall NewSocket;
            NetCall (SetTimeout (source_timeout (source conf)));
            NetCall (Connect (source_host (source conf))
                             (source_port (source conf)));
            LogInfo (String.append "Connected to "
                       (String.append (source_host (source conf))
                          (String.append ":" (str (source_port (source conf))))));
            NewPacket; NewDecoder; NewPublisher; StartThread sk;
            NewServer (server_host (server conf)) (server_port (server conf))
                      (server_cors (server conf)) (server_debug (server conf))],
           sk.
    split; reflexivity.
Qed.

(** X11.  A timeout the socket refuses takes [main] down with an
    exception instead of the clean exit.  With a parsed configuration
    whose timeout is negative and a socket that can be created, [main]
    ends in an uncaught exception after the line announcing the
    connection: [ValueError] when the timeout fits the interpreter's
    range, [OverflowError] when it lies below it.  No connection attempt
    is made, the failure message is not logged, [exit] is not called and
    no thread is started. *)
Theorem main_raises_on_negative_timeout :
  fst (conf_parse args_path) = false ->
  socket_outcome = None ->
  source_timeout (source (snd (conf_parse args_path))) < 0 ->
  fst main
  = Uncaught
      (if source_timeout (source (snd (conf_parse args_path))) <? - timeout_range
       then OverflowError else ValueError)
  /\ attempts (net_calls (snd main)) = 0%nat
  /\ last (snd main) DictConfig
     = NetCall (SetTimeout (source_timeout (source (snd (conf_parse args_path)))))
  /\ forall sk : socket, ~ In (StartThread sk) (snd main).
Proof.
  intros Hconf Hsock Hneg.
  assert (Hset : settimeout (source_timeout (source (snd (conf_parse args_path))))
                 = Some (if source_timeout (source (snd (conf_parse args_path)))
                            <? - timeout_range
                         then OverflowError else ValueError)).
  { unfold settimeout.
    destruct (Z.ltb_spec (source_timeout (source (snd (conf_parse args_path))))
                         (- timeout_range)) as [Hlow | Hlow]; [reflexivity|].
    replace (timeout_range <? source_timeout (source (snd (conf_parse args_path))))
      with false by (symmetry; apply Z.ltb_ge; unfold timeout_range; lia).
    cbn [orb]. apply Z.ltb_lt in Hneg. now rewrite Hneg. }
  destruct main_cases
    as [(Herr & E)
       | [(Herr & e & Hs & E)
         | [(Herr & Hs & e & Ht & E)
           | [(Herr & Hs & Ht & Hc & E) | (Herr & Hs & Ht & Hc & E)]]]];
    try congruence.
  rewrite Hset in Ht. injection Ht as <-.
  rewrite E. cbn [fst snd]. repeat split.
  intros sk H. cbn [In app] in H. intuition discriminate.
Qed.

End MainFacts.

(** * The further statements at work on the sample world *)

Section MoreInstances.
Import Sample.

(** The identification frame, read off the wire and stored as it came. *)
Lemma identification_frame_is_stored_verbatim :
  let w := boot feed_two in
  Forall (fun x => (Byte.to_N x < 128)%N) (wire identification)
  /\ fst (iteration (C := steady) w) = inl tt
  /\ message (packet (snd (iteration (C := steady) w))) = Py.ascii identification.
Proof.
  intros w.
  assert (Hascii : Forall (fun x => (Byte.to_N x < 128)%N) (wire identification))
    by (repeat (constructor; [reflexivity|]); constructor).
  split; [exact Hascii|].
  destruct (well_formed_frame_is_stored_verbatim (C := steady) w
              (found := fst (fst (socket_find (Capabilities := steady) (sock w) star)))
              (s1 := snd (socket_find (Capabilities := steady) (sock w) star))
              (s2 := snd (recv (Capabilities := steady)
                            (snd (socket_find (Capabilities := steady) (sock w) star)) 29))
              (payload := wire identification)
              eq_refl eq_refl Hascii eq_refl eq_refl) as (Hend & Hp & _).
  split; [exact Hend|]. rewrite Hp. reflexivity.
Defined.

(** The identification message has an ASCII header, 8D. *)
Lemma identification_header_passes :
  Forall (fun c => (c < 128)%N) (Py.slice_2 (Py.ascii identification))
  /\ (Py.downlink_format (Py.ascii identification) = Some 17
      <-> exists (c2 : codepoint) (rest : pystr) (lo : Z),
            Py.ascii identification = 56%N :: c2 :: rest
            /\ hex_digit c2 = Some lo /\ 8 <= lo).
Proof.
  assert (H : Forall (fun c => (c < 128)%N) (Py.slice_2 (Py.ascii identification)))
    by (repeat (constructor; [reflexivity|]); constructor).
  split; [exact H|].
  apply (format_17_headers unicode_excerpt (Py.ascii identification) H).
Defined.

(** Coherent after the first frame, coherent after the second. *)
Lemma coherent_after_two_frames :
  let w := snd (iteration (C := steady) (boot feed_two)) in
  coherent (C := steady) w
  /\ coherent (C := steady) (snd (iteration (C := steady) w)).
Proof.
  intros w.
  assert (H : coherent (C := steady) w) by (repeat split).
  split; [exact H|].
  apply (coherent_is_invariant (C := steady) (w := w) H).
Defined.

(** A feed that has nothing left: five passes, five scans, no end. *)
Lemma empty_feed_spins :
  (forall s : script,
      s = [] ->
      snd (fst (socket_find (Capabilities := steady) s star)) = true
      /\ snd (socket_find (Capabilities := steady) s star) = [])
  /\ fst (decoder_daemon (C := steady) 5 (boot [])) = None
  /\ calls (snd (decoder_daemon (C := steady) 5 (boot [])))
     = repeat (CallSocketFind star) 5.
Proof.
  assert (Hdead : forall s : script,
             s = [] ->
             snd (fst (socket_find (Capabilities := steady) s star)) = true
             /\ snd (socket_find (Capabilities := steady) s star) = []).
  { intros s ->. split; reflexivity. }
  split; [exact Hdead|].
  destruct (failing_scan_spins (C := steady) (fun s : script => s = [])
              (boot []) Hdead eq_refl 5) as (Hend & _ & _ & _ & Hcalls).
  split; [exact Hend | exact Hcalls].
Defined.

(** The configuration that cannot be read: status 1, no network. *)
Lemma unreadable_configuration_exits :
  fst (main (D := broken_deployment) (Net := dead_network)) = SystemExit 1
  /\ ~ In ServerStart (snd (main (D := broken_deployment) (Net := dead_network))).
Proof.
  split; [reflexivity|].
  apply (main_exits_with_status_1_before_starting
           (D := broken_deployment) (Net := dead_network) (code := 1) eq_refl).
Defined.

(** The local feed answers: the server is started behind the thread. *)
Lemma local_deployment_serves :
  In ServerStart (snd (main (D := local_deployment) (Net := local_network)))
  /\ fst (main (D := local_deployment) (Net := local_network)) = Served.
Proof.
  assert (H : In ServerStart
                (snd (main (D := local_deployment) (Net := local_network))))
    by (vm_compute; repeat (first [left; reflexivity | right])).
  split; [exact H|].
  apply (main_serves_only_when_connected
           (D := local_deployment) (Net := local_network) H).
Defined.

(** The two routers of the local deployment, in their order. *)
Lemma local_deployment_registers_both_routers :
  fst (main (D := local_deployment) (Net := local_network)) = Served
  /\ routes (snd (main (D := local_deployment) (Net := local_network)))
     = ["/api/packet"; "/api/status"]%string.
Proof.
  split; [reflexivity|].
  apply (main_registers_every_router_in_order
           (D := local_deployment) (Net := local_network) eq_refl).
Defined.

(** A timeout of -1 in the settings. *)
Lemma hasty_deployment_raises :
  source_timeout (source (snd (conf_parse (Deployment := hasty_deployment)
                                 (args_path (Deployment := hasty_deployment))))) < 0
  /\ fst (main (D := hasty_deployment) (Net := local_network))
     = Uncaught ValueError.
Proof.
  assert (H : source_timeout
                (source (snd (conf_parse (Deployment := hasty_deployment)
                                (args_path (Deployment := hasty_deployment))))) < 0)
    by (simpl; lia).
  split; [exact H|].
  apply (main_raises_on_negative_timeout
           (D := hasty_deployment) (Net := local_network) eq_refl eq_refl H).
Defined.

End MoreInstances.
